(** * clock.py: a BCD binary clock rendered to a 44 second video

    A shallow embedding of [src/clock.py] and the verification of its
    specification.  Python [int] is [Z]; Python [float] is the kernel's binary64
    [float], so every float operation below rounds exactly as CPython's does;
    an exception is a value of [result]; the image a frame is painted on is
    the list of the drawing calls made on it, in paint order. *)

From Stdlib Require Import ZArith List Lia Bool String.
From Stdlib Require Import Floats.
Import ListNotations.
Local Open Scope Z_scope.

(** ** Exceptions *)

Inductive exn : Set :=
| AssertionError
| IndexError
| ValueError
| OverflowError
| ZeroDivisionError.

Inductive result (A : Type) : Type :=
| Ok (a : A)
| Raise (e : exn).
Arguments Ok {A} a.
Arguments Raise {A} e.

Definition bind {A B : Type} (r : result A) (k : A -> result B) : result B :=
  match r with
  | Ok a => k a
  | Raise e => Raise e
  end.

Notation "x <- r ;; k" := (bind r (fun x => k))
  (at level 61, r at next level, right associativity).

Fixpoint mapM {A B : Type} (f : A -> result B) (l : list A) : result (list B) :=
  match l with
  | [] => Ok []
  | a :: l' => b <- f a ;; bs <- mapM f l' ;; Ok (b :: bs)
  end.

(** A [for] loop over [l] that updates a state and stops at the first
    exception. *)
Fixpoint foldM {A S : Type} (f : S -> A -> result S) (l : list A) (s : S) : result S :=
  match l with
  | [] => Ok s
  | a :: l' => s' <- f s a ;; foldM f l' s'
  end.

(** [range(n)]: 0, 1, ..., n-1; empty when [n <= 0]. *)
Definition range (n : Z) : list Z := map Z.of_nat (seq 0 (Z.to_nat n)).

(** [range(a, b)]. *)
Definition range2 (a b : Z) : list Z := map (fun i => a + i) (range (b - a)).

(** [enumerate(l)]. *)
Definition enumerate {A : Type} (l : list A) : list (Z * A) :=
  combine (range (Z.of_nat (List.length l))) l.

(** [l[i]] for a non-negative index. *)
Definition index {A : Type} (l : list A) (i : Z) : result A :=
  if i <? 0 then Raise IndexError
  else match nth_error l (Z.to_nat i) with
       | Some a => Ok a
       | None => Raise IndexError
       end.

(** ** Python numbers *)

Module PyFloat.

Definition is_zero_sf (x : spec_float) : bool :=
  match x with S754_zero _ => true | _ => false end.

Definition is_nan_sf (x : spec_float) : bool :=
  match x with S754_nan => true | _ => false end.

Definition is_inf_sf (x : spec_float) : bool :=
  match x with S754_infinity _ => true | _ => false end.

(** A number, as opposed to an infinity or a NaN. *)
Definition finite_sf (x : spec_float) : bool :=
  match x with S754_zero _ | S754_finite _ _ _ => true | _ => false end.

Definition finite (x : float) : bool := finite_sf (Prim2SF x).


(** [int(x)]: truncation toward zero. *)
Definition SFtrunc (x : spec_float) : result Z :=
  match x with
  | S754_nan => Raise ValueError
  | S754_infinity _ => Raise OverflowError
  | S754_zero _ => Ok 0
  | S754_finite s m e => Ok (cond_Zopp s (Z.shiftl (Zpos m) e))
  end.

Definition trunc (x : float) : result Z := SFtrunc (Prim2SF x).



(** [float(z)], the conversion an [int] operand of a float operation goes
    through: round to nearest even, [OverflowError] past the largest float. *)
Definition of_int (z : Z) : result float :=
  match binary_normalize prec emax z 0 false with
  | S754_infinity _ => Raise OverflowError
  | sf => Ok (SF2Prim sf)
  end.

(** The correctly rounded quotient of two [int]s. *)
Definition SFint_truediv (a b : Z) : spec_float :=
  let s := xorb (a <? 0) (b <? 0) in
  match Z.abs a, Z.abs b with
  | Zpos ma, Zpos mb =>
      SFdiv prec emax (S754_finite s ma 0) (S754_finite false mb 0)
  | _, _ => S754_zero s
  end.

(** [a / b] on two [int]s (CPython's [long_true_divide]): operands that
    both fit the 53 bits of a float are converted and divided as floats;
    larger ones get the correctly rounded quotient, or [OverflowError]. *)
Definition int_truediv (a b : Z) : result float :=
  if b =? 0 then Raise ZeroDivisionError
  else if (Z.abs a <? 2 ^ 53) && (Z.abs b <? 2 ^ 53) then
    da <- of_int a ;; db <- of_int b ;; Ok (da / db)%float
  else match SFint_truediv a b with
       | S754_infinity _ => Raise OverflowError
       | sf => Ok (SF2Prim sf)
       end.

(** [x / y] on floats. *)
Definition div (x y : float) : result float :=
  if is_zero y then Raise ZeroDivisionError else Ok (x / y)%float.

(** C's [fmod]: the exact remainder of the division truncated toward
    zero, with the sign of [x]. *)
Definition SFfmod (x y : spec_float) : spec_float :=
  match x, y with
  | S754_nan, _ | _, S754_nan => S754_nan
  | S754_infinity _, _ => S754_nan
  | _, S754_zero _ => S754_nan
  | S754_zero _, _ => x
  | S754_finite _ _ _, S754_infinity _ => x
  | S754_finite sx mx ex, S754_finite _ my ey =>
      let e := Z.min ex ey in
      let r := Z.modulo (Z.shiftl (Zpos mx) (ex - e)) (Z.shiftl (Zpos my) (ey - e)) in
      binary_normalize prec emax (cond_Zopp sx r) e sx
  end.

(** [x % y] on floats (CPython's [float_rem]): [fmod], then the remainder
    takes the sign of the divisor. *)
Definition rem (x y : float) : result float :=
  if is_zero y then Raise ZeroDivisionError
  else
    let m := SF2Prim (SFfmod (Prim2SF x) (Prim2SF y)) in
    if is_zero m then Ok (if get_sign y then neg_zero else zero)
    else if negb (Bool.eqb (y <? 0)%float (m <? 0)%float) then Ok (m + y)%float
    else Ok m.

(** The exact order between a float and an [int]. *)
Definition SFcompare_Z (x : spec_float) (z : Z) : option comparison :=
  match x with
  | S754_nan => None
  | S754_infinity s => Some (if s then Lt else Gt)
  | S754_zero _ => Some (0 ?= z)
  | S754_finite s m (Zneg p) => Some (cond_Zopp s (Zpos m) ?= z * 2 ^ Zpos p)
  | S754_finite s m e => Some (cond_Zopp s (Zpos m) * 2 ^ e ?= z)
  end.

End PyFloat.

(** A value that is an [int] or a [float], for the expressions of the
    program that mix them. *)
Inductive num : Set :=
| Int (z : Z)
| Float (f : float).

(** [a < b]. *)
Definition num_lt (a b : num) : bool :=
  match a, b with
  | Int x, Int y => x <? y
  | Float x, Float y => (x <? y)%float
  | Float x, Int y =>
      match PyFloat.SFcompare_Z (Prim2SF x) y with Some Lt => true | _ => false end
  | Int x, Float y =>
      match PyFloat.SFcompare_Z (Prim2SF y) x with Some Gt => true | _ => false end
  end.

(** [min(a, b)]: the first argument unless the second is smaller. *)
Definition py_min (a b : num) : num := if num_lt b a then b else a.

(** [max(a, b)]: the first argument unless the second is greater. *)
Definition py_max (a b : num) : num := if num_lt a b then b else a.

(** [a * b]. *)
Definition num_mul (a b : num) : result num :=
  match a, b with
  | Int x, Int y => Ok (Int (x * y))
  | Float x, Float y => Ok (Float (x * y)%float)
  | Int x, Float y => x' <- PyFloat.of_int x ;; Ok (Float (x' * y)%float)
  | Float x, Int y => y' <- PyFloat.of_int y ;; Ok (Float (x * y')%float)
  end.

(** [int(a)]. *)
Definition py_int (a : num) : result Z :=
  match a with
  | Int z => Ok z
  | Float f => PyFloat.trunc f
  end.

(** ** Configuration

    The module-level constants of [clock.py], gathered in a record so that
    the claims about other settings (an effect switched off, another
    frequency, a negative duration) can be stated. *)

(** A colour is a tuple of channel intensities. *)
Definition color := list Z.

Record Config : Type := {
  DURATION_SEC : Z;
  FPS : Z;
  WIDTH : Z;
  HEIGHT : Z;
  BACKGROUND : color;
  LED_ON : color;
  LED_OFF : color;
  GRID_COLS : Z;
  GRID_ROWS : Z;
  COLUMN_SPACING : Z;
  ROW_SPACING : Z;
  LED_RADIUS : Z;
  GRID_CENTER : Z * Z;
  PULSE_ENABLED : bool;
  PULSE_FREQ : float;
  PULSE_DEPTH : float;
  COLON_ENABLED : bool;
  COLON_BLINK_FREQ : float;
  COLON_COLOR : color;
  COLON_RADIUS : Z;
  COLON_SPACING : Z;
  CODE_OVERLAY_ENABLED : bool;
  CODE_OVERLAY_OPACITY : float;
  CODE_FONT_SIZE : Z;
  CODE_LINE_HEIGHT : Z
  ; CODE_COLOR : color
}.

(** The configuration the file ships with. *)
Definition clock_config : Config := {|
  DURATION_SEC := 44;
  FPS := 30;
  WIDTH := 1920;
  HEIGHT := 1080;
  BACKGROUND := [20; 24; 32];
  LED_ON := [40; 200; 255];
  LED_OFF := [60; 70; 80];
  GRID_COLS := 4;
  GRID_ROWS := 4;
  COLUMN_SPACING := 280;
  ROW_SPACING := 160;
  LED_RADIUS := 50;
  GRID_CENTER := (1920 / 2, 1080 / 2 - 40);
  PULSE_ENABLED := true;
  PULSE_FREQ := 0.25%float;
  PULSE_DEPTH := 0.25%float;
  COLON_ENABLED := true;
  COLON_BLINK_FREQ := 1%float;
  COLON_COLOR := [40; 200; 255];
  COLON_RADIUS := 25;
  COLON_SPACING := 120;
  CODE_OVERLAY_ENABLED := true;
  CODE_OVERLAY_OPACITY := 0x1.999999999999ap-2%float;
  CODE_FONT_SIZE := 28;
  CODE_LINE_HEIGHT := 32;
  CODE_COLOR := [150; 255; 150]
|}.

(** ** What the program takes from outside

    The C library's [sin], and the font and text services of the imaging
    library, whose failures the program catches. *)

Inductive Font : Set :=
| TrueType (path : string) (size : Z)
| DefaultFont.

Record Env : Type := {
  libm_sin : float -> float;
  (** what [download_font()] returns, [None] also when it raises *)
  download_font : option string;
  (** whether [ImageFont.truetype(path, size)] loads the font *)
  truetype_loads : string -> Z -> bool;
  (** whether [draw.text] draws the line with the font *)
  text_draws : Font -> string -> bool
}.

(** What C (Annex F) and IEEE 754 fix of [sin]: a zero is returned as it is,
    and a number has a number for its sine. *)
Definition libm_ok (env : Env) : Prop :=
  (forall z, PyFloat.is_zero_sf (Prim2SF z) = true -> libm_sin env z = z) /\
  (forall x, PyFloat.finite x = true -> PyFloat.finite (libm_sin env x) = true).

(** ** Binary clock logic (BCD) *)

(** [bcd_bits(d)]: the bits of [d] for the weights 8, 4, 2, 1, top to
    bottom. *)
Definition bcd_bits (d : Z) : result (list Z) :=
  if (0 <=? d) && (d <=? 9)
  then Ok (map (fun shift => Z.land (Z.shiftr d shift) 1) [3; 2; 1; 0])
  else Raise AssertionError.

(** [digits_for_time(h, m)]: hour tens, hour ones, minute tens, minute
    ones. *)
Definition digits_for_time (h m : Z) : list Z :=
  let ht := h / 10 in
  let ho := h mod 10 in
  let mt := m / 10 in
  let mo := m mod 10 in
  [ht; ho; mt; mo].

(** [get_time_for_elapsed(t)]: 4:43 for the first 22 seconds, 4:44 after. *)
Definition get_time_for_elapsed (t : float) : Z * Z :=
  if (t <? 22)%float then (4, 43) else (4, 44).

(** ** Rendering helpers *)

Inductive DrawOp : Type :=
| Ellipse (bbox : list Z) (fill : color)
| Text (xy : Z * Z) (text : string) (fill : color) (font : option Font).

(** An image: its size, the colour it was created with, and the drawing
    calls made on it since, oldest first. *)
Record Image : Type := {
  img_size : Z * Z;
  img_fill : color;
  img_ops : list DrawOp
}.

Definition Image_new (size : Z * Z) (fill : color) : Image :=
  {| img_size := size; img_fill := fill; img_ops := [] |}.

Definition draw (img : Image) (op : DrawOp) : Image :=
  {| img_size := img_size img; img_fill := img_fill img;
     img_ops := img_ops img ++ [op] |}.

(** [draw_led(draw, cx, cy, r, color)]. *)
Definition draw_led (img : Image) (cx cy r : Z) (c : color) : Image :=
  let bbox := [cx - r; cy - r; cx + r; cy + r] in
  draw img (Ellipse bbox c).

(** [compute_grid_positions()]: one list per column, one [(x, y)] per row. *)
Definition compute_grid_positions (cfg : Config) : list (list (Z * Z)) :=
  let '(cx, cy) := GRID_CENTER cfg in
  let total_w := COLUMN_SPACING cfg * (GRID_COLS cfg - 1) in
  let total_h := ROW_SPACING cfg * (GRID_ROWS cfg - 1) in
  let left := cx - total_w / 2 in
  let top := cy - total_h / 2 in
  map (fun col =>
         let col_x := left + col * COLUMN_SPACING cfg in
         map (fun row =>
                let row_y := top + row * ROW_SPACING cfg in
                (col_x, row_y))
             (range (GRID_ROWS cfg)))
      (range (GRID_COLS cfg)).

(** [math.pi]. *)
Definition math_pi : float := 0x1.921fb54442d18p+1%float.

(** [math.sin(x)]: the C library's value, unless it is a NaN the argument
    was not, or an infinity for a finite argument ([ValueError], as [sin]
    cannot overflow). *)
Definition math_sin (env : Env) (x : float) : result float :=
  let r := libm_sin env x in
  if is_nan r && negb (is_nan x) then Raise ValueError
  else if is_infinity r && is_finite x then Raise ValueError
  else Ok r.

(** [pulse_factor(t)]. *)
Definition pulse_factor (env : Env) (cfg : Config) (t : float) : result float :=
  if negb (PULSE_ENABLED cfg) then Ok 1%float
  else
    s <- math_sin env (2 * math_pi * PULSE_FREQ cfg * t)%float ;;
    Ok (1 + PULSE_DEPTH cfg * s)%float.

(** [modulate_brightness(color, k)]. *)
Definition modulate_brightness (c : color) (k : float) : result color :=
  let k := py_max (Float 0) (py_min (Float 2) (Float k)) in
  mapM (fun ch =>
          x <- num_mul (Int ch) k ;;
          py_int (py_max (Int 0) (py_min (Int 255) x)))
       c.

(** [colon_visible(t)]. *)
Definition colon_visible (cfg : Config) (t : float) : result bool :=
  if negb (COLON_ENABLED cfg) then Ok false
  else
    cycle_time <- PyFloat.div 1 (COLON_BLINK_FREQ cfg) ;;
    r <- PyFloat.rem t cycle_time ;;
    Ok (r <? cycle_time / 2)%float.

(** ** The code overlay *)

Definition lines_per_screen : Z := 25.

(** The number of lines the overlay can start at. *)
Definition total_scrollable_lines (source_lines : list string) : Z :=
  Z.max 1 (Z.of_nat (List.length source_lines) - lines_per_screen + 1).

(** The first line [draw_code_overlay] shows at time [t]. *)
Definition start_line (cfg : Config) (source_lines : list string) (t : float) : result Z :=
  let total := total_scrollable_lines source_lines in
  lines_per_second <- PyFloat.int_truediv total (DURATION_SEC cfg) ;;
  n <- PyFloat.trunc (t * lines_per_second)%float ;;
  Ok (n mod total).

(** The font of the overlay: the downloaded one, else Consolas, else the
    library's default. *)
Definition overlay_font (env : Env) (cfg : Config) : Font :=
  let size := CODE_FONT_SIZE cfg in
  let font :=
    match download_font env with
    | Some font_path =>
        if negb (String.eqb font_path EmptyString) && truetype_loads env font_path size
        then Some (TrueType font_path size) else None
    | None => None
    end in
  match font with
  | Some f => f
  | None =>
      if truetype_loads env "consolas.ttf" size
      then TrueType "consolas.ttf" size else DefaultFont
  end.

(** [draw_code_overlay(draw, source_lines, t)]. *)
Definition draw_code_overlay (env : Env) (cfg : Config) (img : Image)
    (source_lines : list string) (t : float) : result Image :=
  if negb (CODE_OVERLAY_ENABLED cfg) || (List.length source_lines =? 0)%nat then Ok img
  else
    let len := Z.of_nat (List.length source_lines) in
    first <- start_line cfg source_lines t ;;
    let end_line := Z.min (first + lines_per_screen) len in
    let start_y := 100 in
    let start_x := 400 in
    let font := overlay_font env cfg in
    fill <- mapM (fun c => c' <- PyFloat.of_int c ;;
                           PyFloat.trunc (c' * CODE_OVERLAY_OPACITY cfg)%float)
                 (CODE_COLOR cfg) ;;
    foldM (fun img il =>
             let '(i, line_idx) := il in
             if line_idx <? len then
               line <- index source_lines line_idx ;;
               let display_line :=
                 if (120 <? String.length line)%nat then substring 0 120 line else line in
               let y := start_y + i * CODE_LINE_HEIGHT cfg in
               if text_draws env font display_line
               then Ok (draw img (Text (start_x, y) display_line fill (Some font)))
               else Ok (draw img (Text (start_x, y) "[code]" fill None))
             else Ok img)
          (enumerate (range2 first end_line)) img.

(** ** One frame *)

(** The digits a frame at time [t] shows. *)
Definition frame_digits (t : float) : list Z :=
  let '(hour, minute) := get_time_for_elapsed t in
  digits_for_time hour minute.

(** One LED of the grid: row [row_idx] of column [col_idx]. *)
Definition draw_bit (cfg : Config) (positions : list (list (Z * Z))) (k : float)
    (col_idx : Z) (img : Image) (rb : Z * Z) : result Image :=
  let '(row_idx, bit) := rb in
  column <- index positions col_idx ;;
  xy <- index column row_idx ;;
  let '(cx, cy) := xy in
  let lit := negb (bit =? 0) in
  let base_color := if lit then LED_ON cfg else LED_OFF cfg in
  c <- modulate_brightness base_color (if lit then k else 1%float) ;;
  Ok (draw_led img cx cy (LED_RADIUS cfg) c).

(** One digit column. *)
Definition draw_digit (cfg : Config) (positions : list (list (Z * Z))) (k : float)
    (img : Image) (cd : Z * Z) : result Image :=
  let '(col_idx, d) := cd in
  bits <- bcd_bits d ;;
  foldM (draw_bit cfg positions k col_idx) (enumerate bits) img.

(** The two dots between the hour and the minute columns. *)
Definition draw_colon (cfg : Config) (positions : list (list (Z * Z))) (img : Image)
  : result Image :=
  c1 <- index positions 1 ;;
  p1 <- index c1 0 ;;
  c2 <- index positions 2 ;;
  p2 <- index c2 0 ;;
  let colon_x := (fst p1 + fst p2) / 2 in
  let colon_y_center := snd (GRID_CENTER cfg) in
  let colon_y1 := colon_y_center - COLON_SPACING cfg / 2 in
  let colon_y2 := colon_y_center + COLON_SPACING cfg / 2 in
  let img := draw_led img colon_x colon_y1 (COLON_RADIUS cfg) (COLON_COLOR cfg) in
  Ok (draw_led img colon_x colon_y2 (COLON_RADIUS cfg) (COLON_COLOR cfg)).

(** [render_frame(t, positions, source_lines)]. *)
Definition render_frame (env : Env) (cfg : Config) (t : float)
    (positions : list (list (Z * Z))) (source_lines : list string) : result Image :=
  let digits := frame_digits t in
  let img := Image_new (WIDTH cfg, HEIGHT cfg) (BACKGROUND cfg) in
  img <- draw_code_overlay env cfg img source_lines t ;;
  k <- pulse_factor env cfg t ;;
  img <- foldM (draw_digit cfg positions k) (enumerate digits) img ;;
  visible <- colon_visible cfg t ;;
  if visible then draw_colon cfg positions img else Ok img.

(** ** The video *)

(** The video writer: the frames appended so far, and whether it was
    closed. *)
Record Writer : Type := {
  appended : list Image;
  closed : bool
}.

Definition get_writer : Writer := {| appended := []; closed := false |}.

Definition append_data (w : Writer) (frame : Image) : Writer :=
  {| appended := appended w ++ [frame]; closed := closed w |}.

Definition close (w : Writer) : Writer :=
  {| appended := appended w; closed := true |}.

(** The body of the [for] loop of [main_mp4], for frame [i]. *)
Definition frame_at (env : Env) (cfg : Config) (positions : list (list (Z * Z)))
    (source_lines : list string) (i : Z) : result Image :=
  t <- PyFloat.int_truediv i (FPS cfg) ;;
  render_frame env cfg t positions source_lines.

(** The [for] loop: the outcome, and the writer as the loop leaves it. *)
Fixpoint write_frames (env : Env) (cfg : Config) (positions : list (list (Z * Z)))
    (source_lines : list string) (frames : list Z) (w : Writer) : result unit * Writer :=
  match frames with
  | [] => (Ok tt, w)
  | i :: rest =>
      match frame_at env cfg positions source_lines i with
      | Ok frame_img =>
          write_frames env cfg positions source_lines rest (append_data w frame_img)
      | Raise e => (Raise e, w)
      end
  end.

(** [main_mp4()], for the lines [load_source_code()] returned: the outcome
    and the writer after the [finally] clause. *)
Definition main_mp4 (env : Env) (cfg : Config) (source_lines : list string)
  : result unit * Writer :=
  let positions := compute_grid_positions cfg in
  let total_frames := DURATION_SEC cfg * FPS cfg in
  let writer := get_writer in
  let '(outcome, writer) :=
    write_frames env cfg positions source_lines (range total_frames) writer in
  (outcome, close writer).

(** ** Definitions the statements use *)

(** [positions[col][row]]. *)
Definition grid_at (positions : list (list (Z * Z))) (col row : Z) : result (Z * Z) :=
  column <- index positions col ;;
  index column row.





(** The configuration with another duration, pulse frequency or switch. *)
Definition with_duration (d : Z) (cfg : Config) : Config := {|
  DURATION_SEC := d; FPS := FPS cfg; WIDTH := WIDTH cfg; HEIGHT := HEIGHT cfg;
  BACKGROUND := BACKGROUND cfg; LED_ON := LED_ON cfg; LED_OFF := LED_OFF cfg;
  GRID_COLS := GRID_COLS cfg; GRID_ROWS := GRID_ROWS cfg;
  COLUMN_SPACING := COLUMN_SPACING cfg; ROW_SPACING := ROW_SPACING cfg;
  LED_RADIUS := LED_RADIUS cfg; GRID_CENTER := GRID_CENTER cfg;
  PULSE_ENABLED := PULSE_ENABLED cfg; PULSE_FREQ := PULSE_FREQ cfg;
  PULSE_DEPTH := PULSE_DEPTH cfg; COLON_ENABLED := COLON_ENABLED cfg;
  COLON_BLINK_FREQ := COLON_BLINK_FREQ cfg; COLON_COLOR := COLON_COLOR cfg;
  COLON_RADIUS := COLON_RADIUS cfg; COLON_SPACING := COLON_SPACING cfg;
  CODE_OVERLAY_ENABLED := CODE_OVERLAY_ENABLED cfg;
  CODE_OVERLAY_OPACITY := CODE_OVERLAY_OPACITY cfg;
  CODE_FONT_SIZE := CODE_FONT_SIZE cfg; CODE_LINE_HEIGHT := CODE_LINE_HEIGHT cfg;
  CODE_COLOR := CODE_COLOR cfg
|}.

Definition with_pulse (enabled : bool) (freq : float) (cfg : Config) : Config := {|
  DURATION_SEC := DURATION_SEC cfg; FPS := FPS cfg; WIDTH := WIDTH cfg; HEIGHT := HEIGHT cfg;
  BACKGROUND := BACKGROUND cfg; LED_ON := LED_ON cfg; LED_OFF := LED_OFF cfg;
  GRID_COLS := GRID_COLS cfg; GRID_ROWS := GRID_ROWS cfg;
  COLUMN_SPACING := COLUMN_SPACING cfg; ROW_SPACING := ROW_SPACING cfg;
  LED_RADIUS := LED_RADIUS cfg; GRID_CENTER := GRID_CENTER cfg;
  PULSE_ENABLED := enabled; PULSE_FREQ := freq;
  PULSE_DEPTH := PULSE_DEPTH cfg; COLON_ENABLED := COLON_ENABLED cfg;
  COLON_BLINK_FREQ := COLON_BLINK_FREQ cfg; COLON_COLOR := COLON_COLOR cfg;
  COLON_RADIUS := COLON_RADIUS cfg; COLON_SPACING := COLON_SPACING cfg;
  CODE_OVERLAY_ENABLED := CODE_OVERLAY_ENABLED cfg;
  CODE_OVERLAY_OPACITY := CODE_OVERLAY_OPACITY cfg;
  CODE_FONT_SIZE := CODE_FONT_SIZE cfg; CODE_LINE_HEIGHT := CODE_LINE_HEIGHT cfg;
  CODE_COLOR := CODE_COLOR cfg
|}.

Definition with_colon (enabled : bool) (cfg : Config) : Config := {|
  DURATION_SEC := DURATION_SEC cfg; FPS := FPS cfg; WIDTH := WIDTH cfg; HEIGHT := HEIGHT cfg;
  BACKGROUND := BACKGROUND cfg; LED_ON := LED_ON cfg; LED_OFF := LED_OFF cfg;
  GRID_COLS := GRID_COLS cfg; GRID_ROWS := GRID_ROWS cfg;
  COLUMN_SPACING := COLUMN_SPACING cfg; ROW_SPACING := ROW_SPACING cfg;
  LED_RADIUS := LED_RADIUS cfg; GRID_CENTER := GRID_CENTER cfg;
  PULSE_ENABLED := PULSE_ENABLED cfg; PULSE_FREQ := PULSE_FREQ cfg;
  PULSE_DEPTH := PULSE_DEPTH cfg; COLON_ENABLED := enabled;
  COLON_BLINK_FREQ := COLON_BLINK_FREQ cfg; COLON_COLOR := COLON_COLOR cfg;
  COLON_RADIUS := COLON_RADIUS cfg; COLON_SPACING := COLON_SPACING cfg;
  CODE_OVERLAY_ENABLED := CODE_OVERLAY_ENABLED cfg;
  CODE_OVERLAY_OPACITY := CODE_OVERLAY_OPACITY cfg;
  CODE_FONT_SIZE := CODE_FONT_SIZE cfg; CODE_LINE_HEIGHT := CODE_LINE_HEIGHT cfg;
  CODE_COLOR := CODE_COLOR cfg
|}.

(** A frequency of 1e308 Hz. *)
Definition huge_freq : float := 0x1.1ccf385ebc8ap+1023%float.

(** A stand-in for the outside world: a [sin] that is right at the zeros,
    the infinities and NaN, and crude elsewhere ([x] near zero, 0 farther
    away); no font to be had; every line drawable. *)
Definition sample_sin (x : float) : float :=
  if is_nan x || is_infinity x then nan
  else if is_zero x then x
  else if (abs x <? 1)%float then x
  else 0%float.

Definition sample_env : Env := {|
  libm_sin := sample_sin;
  download_font := None;
  truetype_loads := fun _ _ => false;
  text_draws := fun _ _ => true
|}.

(** As many lines as [clock.py] has. *)
Definition sample_lines : list string := repeat "# Python 3.12"%string 283.

(** ** Bounds on rounded results *)

(** An upper bound of the exponent [binary_round_aux] returns for a
    mantissa [m] and an exponent [e]. *)
Definition bra_exp (m e : Z) : Z :=
  let e1 := Z.max e (fexp prec emax (Zdigits2 m + e)) in
  Z.max e1 (fexp prec emax (Zdigits2 m + 1 + e1)).

(** The same for a mantissa of at most [D] digits and an exponent of at
    most [E]. *)
Definition exp_bound (D E : Z) : Z :=
  let X := Z.max (Z.max E (D + E - 53)) (-1074) in
  Z.max (Z.max X (D + X - 52)) (-1074).

(** Not a NaN, of sign [s], of exponent at most [E] when it is a number
    other than zero, and an infinity only if [E] is past the largest
    exponent. *)
Definition rounded (s : bool) (E : Z) (x : spec_float) : Prop :=
  match x with
  | S754_zero s' => s' = s
  | S754_finite s' _ e' => s' = s /\ e' <= E
  | S754_infinity s' => s' = s /\ emax - prec < E
  | S754_nan => False
  end.






(** An outcome other than a failed [assert]. *)
Definition no_assert {A : Type} (r : result A) : Prop := r <> Raise AssertionError.

(** ** Further definitions for statements *)

(** The configuration with another blink switch and frequency. *)
Definition with_blink (enabled : bool) (freq : float) (cfg : Config) : Config := {|
  DURATION_SEC := DURATION_SEC cfg; FPS := FPS cfg; WIDTH := WIDTH cfg; HEIGHT := HEIGHT cfg;
  BACKGROUND := BACKGROUND cfg; LED_ON := LED_ON cfg; LED_OFF := LED_OFF cfg;
  GRID_COLS := GRID_COLS cfg; GRID_ROWS := GRID_ROWS cfg;
  COLUMN_SPACING := COLUMN_SPACING cfg; ROW_SPACING := ROW_SPACING cfg;
  LED_RADIUS := LED_RADIUS cfg; GRID_CENTER := GRID_CENTER cfg;
  PULSE_ENABLED := PULSE_ENABLED cfg; PULSE_FREQ := PULSE_FREQ cfg;
  PULSE_DEPTH := PULSE_DEPTH cfg; COLON_ENABLED := enabled;
  COLON_BLINK_FREQ := freq; COLON_COLOR := COLON_COLOR cfg;
  COLON_RADIUS := COLON_RADIUS cfg; COLON_SPACING := COLON_SPACING cfg;
  CODE_OVERLAY_ENABLED := CODE_OVERLAY_ENABLED cfg;
  CODE_OVERLAY_OPACITY := CODE_OVERLAY_OPACITY cfg;
  CODE_FONT_SIZE := CODE_FONT_SIZE cfg; CODE_LINE_HEIGHT := CODE_LINE_HEIGHT cfg;
  CODE_COLOR := CODE_COLOR cfg
|}.

(** The configuration with another grid size. *)
Definition with_grid (cols rows : Z) (cfg : Config) : Config := {|
  DURATION_SEC := DURATION_SEC cfg; FPS := FPS cfg; WIDTH := WIDTH cfg; HEIGHT := HEIGHT cfg;
  BACKGROUND := BACKGROUND cfg; LED_ON := LED_ON cfg; LED_OFF := LED_OFF cfg;
  GRID_COLS := cols; GRID_ROWS := rows;
  COLUMN_SPACING := COLUMN_SPACING cfg; ROW_SPACING := ROW_SPACING cfg;
  LED_RADIUS := LED_RADIUS cfg; GRID_CENTER := GRID_CENTER cfg;
  PULSE_ENABLED := PULSE_ENABLED cfg; PULSE_FREQ := PULSE_FREQ cfg;
  PULSE_DEPTH := PULSE_DEPTH cfg; COLON_ENABLED := COLON_ENABLED cfg;
  COLON_BLINK_FREQ := COLON_BLINK_FREQ cfg; COLON_COLOR := COLON_COLOR cfg;
  COLON_RADIUS := COLON_RADIUS cfg; COLON_SPACING := COLON_SPACING cfg;
  CODE_OVERLAY_ENABLED := CODE_OVERLAY_ENABLED cfg;
  CODE_OVERLAY_OPACITY := CODE_OVERLAY_OPACITY cfg;
  CODE_FONT_SIZE := CODE_FONT_SIZE cfg; CODE_LINE_HEIGHT := CODE_LINE_HEIGHT cfg;
  CODE_COLOR := CODE_COLOR cfg
|}.

(** [lerp_color(c1, c2, t)]. *)
Definition lerp_color (c1 c2 : color) (t : float) : result color :=
  mapM (fun i =>
          a <- index c1 i ;;
          b <- index c2 i ;;
          a' <- index c1 i ;;
          d <- PyFloat.of_int (b - a') ;;
          x <- PyFloat.of_int a ;;
          PyFloat.trunc (x + d * t)%float)
       (range 3).

(** One channel of [lerp_color], for two channel values. *)
Definition lerp_channel (a b : Z) (t : float) : result Z :=
  d <- PyFloat.of_int (b - a) ;;
  x <- PyFloat.of_int a ;;
  PyFloat.trunc (x + d * t)%float.

(** The channel values of a colour. *)
Definition channels : list Z := range 256.

(** [check] holds of every timestamp of a run, frame index first. *)
Definition frames_satisfy (cfg : Config) (check : Z -> float -> bool) : bool :=
  forallb (fun i =>
             match PyFloat.int_truediv i (FPS cfg) with
             | Ok t => check i t
             | Raise _ => false
             end)
          (range (DURATION_SEC cfg * FPS cfg)).

(** The frame at index [i] and time [t] follows the shipped schedule: 4:43
    up to frame 659 and 4:44 from frame 660 on, the colon shown in the
    first 15 frames of every 30. *)
Definition on_schedule (i : Z) (t : float) : bool :=
  match colon_visible clock_config t with
  | Ok visible =>
      Bool.eqb visible (i mod 30 <? 15) &&
      (if i <? 660 then (t <? 22)%float else negb (t <? 22)%float)
  | Raise _ => false
  end.

(** The line of the overlay as it is shown: at most 120 characters. *)
Definition display_line (line : string) : string :=
  if (120 <? String.length line)%nat then substring 0 120 line else line.

(** The drawing call of the overlay for [line] in row [i] of the window. *)
Definition overlay_text (env : Env) (cfg : Config) (fill : color) (i : Z) (line : string)
  : DrawOp :=
  let font := overlay_font env cfg in
  let y := 100 + i * CODE_LINE_HEIGHT cfg in
  if text_draws env font (display_line line)
  then Text (400, y) (display_line line) fill (Some font)
  else Text (400, y) "[code]" fill None.

(** The circle [draw_led] paints at [xy] with radius [r]. *)
Definition led_circle (xy : Z * Z) (r : Z) (c : color) : DrawOp :=
  Ellipse [fst xy - r; snd xy - r; fst xy + r; snd xy + r] c.

(** The bit of digit [d] in row [row] of its column. *)
Definition bit_at (d row : Z) : Z := Z.land (Z.shiftr d (3 - row)) 1.

(** What [draw_bit] paints for entry [(row, bit)] of a column's loop: one
    circle at the grid position, in the pulsed on-colour for a set bit and
    in the off-colour at multiplier 1.0 otherwise. *)
Definition led_drawn (cfg : Config) (positions : list (list (Z * Z))) (k : float)
    (col : Z) (rb : Z * Z) (ops : list DrawOp) : Prop :=
  let lit := negb (snd rb =? 0) in
  exists xy c,
    grid_at positions col (fst rb) = Ok xy /\
    modulate_brightness (if lit then LED_ON cfg else LED_OFF cfg)
                        (if lit then k else 1%float) = Ok c /\
    ops = [led_circle xy (LED_RADIUS cfg) c].

(** What [draw_digit] paints for entry [(col, d)] of the digit loop. *)
Definition digit_drawn (cfg : Config) (positions : list (list (Z * Z))) (k : float)
    (cd : Z * Z) (ops : list DrawOp) : Prop :=
  exists bits opss,
    bcd_bits (snd cd) = Ok bits /\
    Forall2 (led_drawn cfg positions k (fst cd)) (enumerate bits) opss /\
    ops = List.concat opss.

(** The two dots of the colon, for the grid [positions]. *)
Definition colon_dots (cfg : Config) (positions : list (list (Z * Z))) (ops : list DrawOp)
  : Prop :=
  exists p1 p2,
    grid_at positions 1 0 = Ok p1 /\ grid_at positions 2 0 = Ok p2 /\
    let x := (fst p1 + fst p2) / 2 in
    let y := snd (GRID_CENTER cfg) in
    ops = [led_circle (x, y - COLON_SPACING cfg / 2) (COLON_RADIUS cfg) (COLON_COLOR cfg);
           led_circle (x, y + COLON_SPACING cfg / 2) (COLON_RADIUS cfg) (COLON_COLOR cfg)].

(** A result that is not a [ZeroDivisionError]. *)
Definition no_zero_division {A : Type} (r : result A) : Prop := r <> Raise ZeroDivisionError.

(** * Facts about floats *)


Lemma SFcompare_antisym (x y : spec_float) :
  SFcompare y x = option_map CompOpp (SFcompare x y).
Proof.
  destruct x as [sx|sx| |sx mx ex], y as [sy|sy| |sy my ey]; simpl;
    try destruct sx; try destruct sy; try reflexivity.
  - rewrite (Z.compare_antisym ey ex). destruct (ey ?= ex); simpl; try reflexivity.
    rewrite !Pos.compare_cont_spec. simpl. rewrite (Pos.compare_antisym my mx).
    now destruct (my ?= mx)%positive.
  - rewrite (Z.compare_antisym ey ex). destruct (ey ?= ex); simpl; try reflexivity.
    rewrite !Pos.compare_cont_spec. simpl. rewrite (Pos.compare_antisym my mx).
    now destruct (my ?= mx)%positive.
Qed.

Lemma ltb_leb_false (x y : float) : (x <=? y)%float = true -> (y <? x)%float = false.
Proof.
  rewrite leb_spec, ltb_spec. unfold SFleb, SFltb.
  rewrite (SFcompare_antisym (Prim2SF x) (Prim2SF y)).
  destruct (SFcompare (Prim2SF x) (Prim2SF y)) as [[]|]; simpl; congruence.
Qed.

Lemma ltb_leb (x y : float) : (x <? y)%float = true -> (x <=? y)%float = true.
Proof.
  rewrite leb_spec, ltb_spec. unfold SFleb, SFltb.
  destruct (SFcompare (Prim2SF x) (Prim2SF y)) as [[]|]; simpl; congruence.
Qed.

Lemma ltb_asym (x y : float) : (x <? y)%float = true -> (y <? x)%float = false.
Proof. intros H. apply ltb_leb_false, ltb_leb, H. Qed.

Lemma SFcompare_refl (x : spec_float) : SFcompare x x = if PyFloat.is_nan_sf x then None else Some Eq.
Proof.
  destruct x as [s|s| |s m e]; simpl; try destruct s; try reflexivity;
  rewrite Z.compare_refl, Pos.compare_cont_refl; reflexivity.
Qed.

Lemma is_nan_spec (x : float) : is_nan x = PyFloat.is_nan_sf (Prim2SF x).
Proof.
  unfold is_nan. rewrite eqb_spec. unfold SFeqb. rewrite SFcompare_refl.
  now destruct (PyFloat.is_nan_sf (Prim2SF x)).
Qed.

Lemma is_zero_spec (x : float) : is_zero x = PyFloat.is_zero_sf (Prim2SF x).
Proof.
  unfold is_zero. rewrite eqb_spec. unfold SFeqb.
  change (Prim2SF zero) with (S754_zero false).
  destruct (Prim2SF x) as [s|s| |s m e]; simpl; try destruct s; reflexivity.
Qed.

Lemma is_infinity_spec (x : float) : is_infinity x = PyFloat.is_inf_sf (Prim2SF x).
Proof.
  unfold is_infinity. rewrite eqb_spec, abs_spec. unfold SFeqb.
  change (Prim2SF infinity) with (S754_infinity false).
  destruct (Prim2SF x) as [s|s| |s m e]; simpl; try destruct s; reflexivity.
Qed.

Lemma is_finite_spec (x : float) : is_finite x = PyFloat.finite x.
Proof.
  unfold is_finite, PyFloat.finite. rewrite is_nan_spec, is_infinity_spec.
  now destruct (Prim2SF x).
Qed.


Lemma digits2_size (p : positive) : digits2_pos p = Pos.size p.
Proof. induction p; simpl; congruence. Qed.

Lemma Zdigits2_log2 (m : Z) : 0 < m -> Zdigits2 m = Z.log2 m + 1.
Proof.
  destruct m as [|p|p]; try lia. intros _. simpl.
  destruct p; simpl; rewrite ?digits2_size; lia.
Qed.

Lemma Zdigits2_nonneg (m : Z) : 0 <= Zdigits2 m.
Proof. destruct m; simpl; lia. Qed.

Lemma Zdigits2_le (a b : Z) : 0 <= a <= b -> Zdigits2 a <= Zdigits2 b.
Proof.
  intros [Ha Hab]. destruct (Z.eq_dec a 0) as [->|Hn].
  - apply Zdigits2_nonneg.
  - rewrite !Zdigits2_log2 by lia. pose proof (Z.log2_le_mono a b Hab). lia.
Qed.

Lemma Zdigits2_succ (m : Z) : 0 <= m -> Zdigits2 (m + 1) <= Zdigits2 m + 1.
Proof.
  intros Hm. destruct (Z.eq_dec m 0) as [->|Hn]; [simpl; lia|].
  rewrite !Zdigits2_log2 by lia. pose proof (Z.log2_succ_le m). 
  change (Z.succ m) with (m + 1) in *. lia.
Qed.

Lemma Zdigits2_pow2 (m k : Z) : 0 <= m < 2 ^ k -> 0 <= k -> Zdigits2 m <= k.
Proof.
  intros [Hm Hlt] Hk. destruct (Z.eq_dec m 0) as [->|Hn]; [simpl; lia|].
  rewrite Zdigits2_log2 by lia. apply Z.log2_lt_pow2 in Hlt; lia.
Qed.

Lemma shr_1_m (mrs : shr_record) :
  0 <= shr_m mrs -> 0 <= shr_m (shr_1 mrs) <= shr_m mrs.
Proof.
  destruct mrs as [m r s]. simpl. intros Hm.
  destruct m as [|[p|p|]|p]; simpl; lia.
Qed.

Lemma iter_shr_1_m (p : positive) : forall mrs,
  0 <= shr_m mrs -> 0 <= shr_m (iter_pos shr_1 p mrs) <= shr_m mrs.
Proof.
  induction p as [p IH|p IH|]; intros mrs Hm; simpl.
  - pose proof (shr_1_m mrs Hm) as H1.
    pose proof (IH (shr_1 mrs) (proj1 H1)) as H2.
    pose proof (IH _ (proj1 H2)) as H3. lia.
  - pose proof (IH mrs Hm) as H2.
    pose proof (IH _ (proj1 H2)) as H3. lia.
  - apply shr_1_m, Hm.
Qed.

Lemma shr_record_of_loc_m (m : Z) (l : location) : shr_m (shr_record_of_loc m l) = m.
Proof. destruct l as [|[]]; reflexivity. Qed.

Lemma shr_fexp_m (m e : Z) (l : location) :
  0 <= m -> 0 <= shr_m (fst (shr_fexp prec emax m e l)) <= m.
Proof.
  intros Hm. unfold shr_fexp, shr.
  destruct (fexp prec emax (Zdigits2 m + e) - e) as [|p|p]; simpl;
    rewrite ?shr_record_of_loc_m; try lia.
  pose proof (iter_shr_1_m p (shr_record_of_loc m l)) as H.
  rewrite shr_record_of_loc_m in H. auto.
Qed.

Lemma shr_fexp_e (m e : Z) (l : location) :
  snd (shr_fexp prec emax m e l) = Z.max e (fexp prec emax (Zdigits2 m + e)).
Proof.
  unfold shr_fexp, shr.
  destruct (fexp prec emax (Zdigits2 m + e) - e) as [|p|p] eqn:E; simpl; lia.
Qed.

Lemma round_nearest_even_bound (m : Z) (l : location) :
  m <= round_nearest_even m l <= m + 1.
Proof. destruct l as [|[]]; simpl; try lia. destruct (Z.even m); lia. Qed.

Lemma fexp_le (a b : Z) : a <= b -> fexp prec emax a <= fexp prec emax b.
Proof. unfold fexp. lia. Qed.

Lemma binary_round_aux_cases (s : bool) (m e : Z) (l : location) :
  0 <= m ->
  match binary_round_aux prec emax s m e l with
  | S754_zero s' => s' = s
  | S754_finite s' _ e' => s' = s /\ e' <= bra_exp m e
  | S754_infinity s' => s' = s /\ emax - prec < bra_exp m e
  | S754_nan => False
  end.
Proof.
  intros Hm. unfold binary_round_aux.
  pose proof (shr_fexp_m m e l Hm) as Hm1.
  pose proof (shr_fexp_e m e l) as He1.
  destruct (shr_fexp prec emax m e l) as [mrs1 e1]. simpl in Hm1, He1.
  set (m2 := round_nearest_even (shr_m mrs1) (loc_of_shr_record mrs1)).
  pose proof (round_nearest_even_bound (shr_m mrs1) (loc_of_shr_record mrs1)) as Hr.
  fold m2 in Hr.
  assert (Hm2 : 0 <= m2) by lia.
  pose proof (shr_fexp_m m2 e1 loc_Exact Hm2) as Hm3.
  pose proof (shr_fexp_e m2 e1 loc_Exact) as He2.
  destruct (shr_fexp prec emax m2 e1 loc_Exact) as [mrs2 e2]. simpl in Hm3, He2.
  assert (Hd : Zdigits2 m2 <= Zdigits2 m + 1).
  { etransitivity; [apply (Zdigits2_le m2 (m + 1)); lia | apply Zdigits2_succ, Hm]. }
  assert (Hb : e2 <= bra_exp m e).
  { unfold bra_exp. rewrite <- He1. rewrite He2.
    pose proof (fexp_le (Zdigits2 m2 + e1) (Zdigits2 m + 1 + e1)). lia. }
  destruct (shr_m mrs2) as [|p|p]; try lia; auto.
  destruct (e2 <=? emax - prec) eqn:E; [apply Z.leb_le in E | apply Z.leb_gt in E];
    split; auto; lia.
Qed.

Lemma bra_exp_le (m e D E : Z) :
  Zdigits2 m <= D -> e <= E -> bra_exp m e <= exp_bound D E.
Proof.
  intros Hd He. unfold bra_exp, exp_bound, fexp, SpecFloat.emin, prec, emax. lia.
Qed.


Lemma binary_round_aux_rounded s m e l D E :
  0 <= m -> Zdigits2 m <= D -> e <= E ->
  rounded s (exp_bound D E) (binary_round_aux prec emax s m e l).
Proof.
  intros Hm Hd He. pose proof (binary_round_aux_cases s m e l Hm) as H.
  pose proof (bra_exp_le m e D E Hd He).
  destruct (binary_round_aux prec emax s m e l); simpl in *; intuition lia.
Qed.

Lemma digits2_iter_xO (m d : positive) :
  Zpos (digits2_pos (Pos.iter xO m d)) = Zpos (digits2_pos m) + Zpos d.
Proof.
  induction d as [|d IH] using Pos.peano_ind.
  - simpl. lia.
  - rewrite Pos.iter_succ. simpl. lia.
Qed.

Lemma shl_align_bound (mx : positive) (ex : Z) :
  let '(mz, ez) := shl_align mx ex (fexp prec emax (Zpos (digits2_pos mx) + ex)) in
  Zpos (digits2_pos mz) <= Z.max (Zpos (digits2_pos mx)) 53 /\ ez <= ex.
Proof.
  unfold shl_align.
  destruct (fexp prec emax (Zpos (digits2_pos mx) + ex) - ex) as [|d|d] eqn:E; try (split; lia).
  rewrite digits2_iter_xO. unfold fexp, SpecFloat.emin, prec, emax in *. lia.
Qed.

Lemma binary_round_rounded s mx ex D E :
  Zpos (digits2_pos mx) <= D -> 53 <= D -> ex <= E ->
  rounded s (exp_bound D E) (binary_round prec emax s mx ex).
Proof.
  intros Hd HD He. unfold binary_round.
  pose proof (shl_align_bound mx ex) as H.
  destruct (shl_align mx ex (fexp prec emax (Zpos (digits2_pos mx) + ex))) as [mz ez].
  apply binary_round_aux_rounded; simpl; lia.
Qed.

Lemma digits2_pos_lt (m : positive) (k : Z) :
  Zpos m < 2 ^ k -> 0 <= k -> Zpos (digits2_pos m) <= k.
Proof. intros. apply (Zdigits2_pow2 (Zpos m) k); lia. Qed.

Lemma binary_normalize_rounded (z : Z) :
  Z.abs z < 2 ^ 63 ->
  rounded (z <? 0) (exp_bound 63 0) (binary_normalize prec emax z 0 false).
Proof.
  intros Hz. destruct z as [|p|p]; simpl.
  - reflexivity.
  - apply binary_round_rounded; try lia. apply digits2_pos_lt; lia.
  - apply binary_round_rounded; try lia. apply digits2_pos_lt; lia.
Qed.

Lemma of_Z_to_Z (z : Z) : 0 <= z < 2 ^ 63 -> Uint63.to_Z (Uint63.of_Z z) = z.
Proof.
  intros Hz. rewrite Uint63.of_Z_spec. apply Z.mod_small. exact Hz.
Qed.

Lemma Prim2SF_of_uint63 (z : Z) : 0 <= z < 2 ^ 63 ->
  Prim2SF (of_uint63 (Uint63.of_Z z)) = binary_normalize prec emax z 0 false.
Proof. intros Hz. rewrite of_uint63_spec, of_Z_to_Z by exact Hz. reflexivity. Qed.

Lemma SF2Prim_binary_normalize (z : Z) : 0 <= z < 2 ^ 63 ->
  SF2Prim (binary_normalize prec emax z 0 false) = of_uint63 (Uint63.of_Z z).
Proof. intros Hz. rewrite <- Prim2SF_of_uint63 by exact Hz. apply SF2Prim_Prim2SF. Qed.

Lemma exp_bound_63 : exp_bound 63 0 = 21.
Proof. reflexivity. Qed.

Lemma of_int_nonneg (z : Z) : 0 <= z < 2 ^ 63 ->
  PyFloat.of_int z = Ok (of_uint63 (Uint63.of_Z z)) /\
  rounded false 21 (Prim2SF (of_uint63 (Uint63.of_Z z))).
Proof.
  intros Hz. pose proof (binary_normalize_rounded z ltac:(lia)) as H.
  rewrite exp_bound_63 in H.
  replace (z <? 0) with false in H by (symmetry; apply Z.ltb_ge; lia).
  unfold PyFloat.of_int. rewrite Prim2SF_of_uint63 by exact Hz.
  rewrite <- (SF2Prim_binary_normalize z Hz).
  split; [|exact H].
  destruct (binary_normalize prec emax z 0 false); simpl in *; try reflexivity.
  unfold emax, prec in H. lia.
Qed.









(** * Verification of the specification *)


(** * The BCD logic *)

Lemma digit_cases (d : Z) : 0 <= d <= 9 ->
  d = 0 \/ d = 1 \/ d = 2 \/ d = 3 \/ d = 4 \/ d = 5 \/ d = 6 \/ d = 7 \/ d = 8 \/ d = 9.
Proof. lia. Qed.

Lemma bcd_bits_in_range (d : Z) : 0 <= d <= 9 ->
  bcd_bits d = Ok (map (fun shift => Z.land (Z.shiftr d shift) 1) [3; 2; 1; 0]).
Proof.
  intros H. unfold bcd_bits.
  replace ((0 <=? d) && (d <=? 9)) with true; [reflexivity|].
  symmetry. apply andb_true_intro. split; apply Z.leb_le; lia.
Qed.

Lemma bcd_bits_out_of_range (d : Z) : d < 0 \/ 9 < d -> bcd_bits d = Raise AssertionError.
Proof.
  intros H. unfold bcd_bits.
  replace ((0 <=? d) && (d <=? 9)) with false; [reflexivity|].
  symmetry. apply andb_false_iff. destruct H; [left; apply Z.leb_gt | right; apply Z.leb_gt]; lia.
Qed.

(** C3: for a digit [d] of 0..9, [bcd_bits d] is the four bits
    [(d >> (3 - i)) & 1], i = 0..3, most significant first, each 0 or 1, and
    [8*b0 + 4*b1 + 2*b2 + 1*b3] gives [d] back. *)
Theorem bcd_bits_roundtrip (d : Z) :
  0 <= d <= 9 ->
  exists b0 b1 b2 b3,
    bcd_bits d = Ok [b0; b1; b2; b3] /\
    (forall i, 0 <= i <= 3 ->
       nth (Z.to_nat i) [b0; b1; b2; b3] 0 = Z.land (Z.shiftr d (3 - i)) 1) /\
    Forall (fun b => b = 0 \/ b = 1) [b0; b1; b2; b3] /\
    8 * b0 + 4 * b1 + 2 * b2 + 1 * b3 = d.
Proof.
  intros H. rewrite (bcd_bits_in_range d H). simpl map.
  do 4 eexists. split; [reflexivity|]. split; [|split].
  - intros i Hi.
    assert (Hc : i = 0 \/ i = 1 \/ i = 2 \/ i = 3) by lia.
    destruct Hc as [->|[->|[->| ->]]]; reflexivity.
  - destruct (digit_cases d H) as [->|[->|[->|[->|[->|[->|[->|[->|[->| ->]]]]]]]]];
      repeat (apply Forall_cons; [cbv; auto|]); apply Forall_nil.
  - destruct (digit_cases d H) as [->|[->|[->|[->|[->|[->|[->|[->|[->| ->]]]]]]]]];
      reflexivity.
Qed.

Lemma bcd_bits_roundtrip_witness :
  exists b0 b1 b2 b3,
    bcd_bits 9 = Ok [b0; b1; b2; b3] /\
    (forall i, 0 <= i <= 3 ->
       nth (Z.to_nat i) [b0; b1; b2; b3] 0 = Z.land (Z.shiftr 9 (3 - i)) 1) /\
    Forall (fun b => b = 0 \/ b = 1) [b0; b1; b2; b3] /\
    8 * b0 + 4 * b1 + 2 * b2 + 1 * b3 = 9.
Proof. apply (bcd_bits_roundtrip 9). lia. Defined.

(** * The time schedule *)

Lemma frame_digits_before (t : float) :
  (t <? 22)%float = true -> frame_digits t = [0; 4; 4; 3].
Proof. intros H. unfold frame_digits, get_time_for_elapsed. rewrite H. reflexivity. Qed.

Lemma frame_digits_after (t : float) :
  (t <? 22)%float = false -> frame_digits t = [0; 4; 4; 4].
Proof. intros H. unfold frame_digits, get_time_for_elapsed. rewrite H. reflexivity. Qed.

(** C2: the digits shown are [0,4,4,3] for [0 <= t < 22.0] and [0,4,4,4]
    for [22.0 <= t <= 44.0]: one step, at 22.0; they are the hour and the
    minute divided by 10 and taken modulo 10. *)
Theorem time_to_digit_step (t : float) :
  ((0 <=? t)%float = true -> (t <? 22)%float = true -> frame_digits t = [0; 4; 4; 3]) /\
  ((22 <=? t)%float = true -> (t <=? 44)%float = true -> frame_digits t = [0; 4; 4; 4]) /\
  (let '(h, m) := get_time_for_elapsed t in
   (h, m) = (if (t <? 22)%float then (4, 43) else (4, 44)) /\
   frame_digits t = [h / 10; h mod 10; m / 10; m mod 10]).
Proof.
  split; [|split].
  - intros _ H. apply frame_digits_before, H.
  - intros H _. apply frame_digits_after, ltb_leb_false, H.
  - unfold frame_digits, get_time_for_elapsed.
    destruct (t <? 22)%float; split; reflexivity.
Qed.

Lemma time_to_digit_step_witness :
  frame_digits 21.5 = [0; 4; 4; 3] /\ frame_digits 22 = [0; 4; 4; 4] /\
  frame_digits 44 = [0; 4; 4; 4].
Proof.
  split; [|split].
  - apply (proj1 (time_to_digit_step 21.5)); reflexivity.
  - apply (proj1 (proj2 (time_to_digit_step 22))); reflexivity.
  - apply (proj1 (proj2 (time_to_digit_step 44))); reflexivity.
Defined.

(** * The grid *)

(** C5: the shipped grid is a table of 4 columns of 4 integer points,
    mirrored about the centre (960, 500) in both directions, with
    neighbouring columns 280 apart in x and neighbouring rows 160 apart in
    y. *)
Theorem grid_positions_centered :
  let positions := compute_grid_positions clock_config in
  let cx := fst (GRID_CENTER clock_config) in
  let cy := snd (GRID_CENTER clock_config) in
  (cx, cy) = (960, 500) /\
  COLUMN_SPACING clock_config = 280 /\ ROW_SPACING clock_config = 160 /\
  List.length positions = 4%nat /\
  Forall (fun column => List.length column = 4%nat) positions /\
  forall col row, 0 <= col < 4 -> 0 <= row < 4 ->
    exists x y,
      grid_at positions col row = Ok (x, y) /\
      grid_at positions (3 - col) row = Ok (2 * cx - x, y) /\
      grid_at positions col (3 - row) = Ok (x, 2 * cy - y) /\
      (col < 3 -> grid_at positions (col + 1) row = Ok (x + 280, y)) /\
      (row < 3 -> grid_at positions col (row + 1) = Ok (x, y + 160)).
Proof.
  cbv zeta. change (GRID_CENTER clock_config) with (960, 500). simpl fst. simpl snd.
  do 4 (split; [reflexivity|]). split; [repeat constructor|].
  intros col row Hc Hr.
  assert (Hc' : col = 0 \/ col = 1 \/ col = 2 \/ col = 3) by lia.
  assert (Hr' : row = 0 \/ row = 1 \/ row = 2 \/ row = 3) by lia.
  destruct Hc' as [->|[->|[->| ->]]]; destruct Hr' as [->|[->|[->| ->]]];
    do 2 eexists; (split; [reflexivity|]);
    repeat split; try reflexivity; intros; try lia; reflexivity.
Qed.

(** * Loops *)

Lemma mapM_Forall {A B : Type} (f : A -> result B) (P : A -> Prop) (Q : B -> Prop)
    (l : list A) :
  (forall a, P a -> exists b, f a = Ok b /\ Q b) ->
  Forall P l ->
  exists bs, mapM f l = Ok bs /\ Forall Q bs /\ List.length bs = List.length l.
Proof.
  intros Hf Hl. induction Hl as [|a l Ha Hl IH]; simpl.
  - exists []. repeat split; constructor.
  - destruct (Hf a Ha) as (b & -> & Hb). destruct IH as (bs & -> & Hbs & Hlen).
    exists (b :: bs). simpl. repeat split; [constructor; assumption | congruence].
Qed.


(** * Brightness *)

Lemma clamp_multiplier (k : float) :
  exists k', py_max (Float 0) (py_min (Float 2) (Float k)) = Float k' /\
             (0 <=? k')%float = true /\ (k' <=? 2)%float = true.
Proof.
  unfold py_max, py_min, num_lt.
  destruct (k <? 2)%float eqn:H2.
  - destruct (0 <? k)%float eqn:H0.
    + exists k. repeat split; apply ltb_leb; assumption.
    + exists 0%float. repeat split; reflexivity.
  - change (0 <? 2)%float with true. cbv iota.
    exists 2%float. repeat split; reflexivity.
Qed.

Lemma SFtrunc_between (x : spec_float) (hi : Z) :
  PyFloat.SFcompare_Z x hi = Some Lt -> PyFloat.SFcompare_Z x 0 = Some Gt ->
  exists v, PyFloat.SFtrunc x = Ok v /\ 0 <= v < hi.
Proof.
  destruct x as [s|s| |s m e]; cbn [PyFloat.SFcompare_Z PyFloat.SFtrunc].
  - intros _ H. discriminate.
  - destruct s; discriminate.
  - discriminate.
  - assert (Hs : forall z, cond_Zopp s (Zpos m) * z = (if s then - (Zpos m * z) else Zpos m * z))
      by (intros z; destruct s; unfold cond_Zopp; ring).
    destruct e as [|p|p]; intros Hhi H0; injection Hhi as Hhi; injection H0 as H0.
    + rewrite Hs in Hhi, H0. rewrite ?Z.pow_0_r in Hhi, H0.
      apply (proj1 (Z.compare_lt_iff _ _)) in Hhi. apply Z.compare_gt_iff in H0.
      destruct s; [lia|].
      eexists; split; [reflexivity|]. cbn [cond_Zopp]. rewrite Z.shiftl_0_r. lia.
    + assert (0 < 2 ^ Zpos p) by (apply Z.pow_pos_nonneg; lia).
      rewrite Hs in Hhi, H0.
      apply (proj1 (Z.compare_lt_iff _ _)) in Hhi. apply Z.compare_gt_iff in H0.
      destruct s; [nia|].
      eexists; split; [reflexivity|]. cbn [cond_Zopp].
      rewrite Z.shiftl_mul_pow2 by lia. nia.
    + assert (0 < 2 ^ Zpos p) by (apply Z.pow_pos_nonneg; lia).
      apply (proj1 (Z.compare_lt_iff _ _)) in Hhi. apply Z.compare_gt_iff in H0.
      destruct s; cbn [cond_Zopp] in *; [lia|].
      eexists; split; [reflexivity|].
      change (Z.shiftl (Zpos m) (Zneg p)) with (Z.shiftr (Zpos m) (Zpos p)).
      rewrite Z.shiftr_div_pow2 by lia.
      split; [apply Z.div_pos; lia | apply Z.div_lt_upper_bound; lia].
Qed.

Lemma channel_clamped (ch : Z) (k : float) :
  0 <= ch <= 255 ->
  exists v, (x <- num_mul (Int ch) (Float k) ;;
             py_int (py_max (Int 0) (py_min (Int 255) x))) = Ok v /\ 0 <= v <= 255.
Proof.
  intros Hch. destruct (of_int_nonneg ch ltac:(lia)) as [Hf _].
  unfold num_mul. rewrite Hf. simpl bind.
  set (y := (_ * k)%float). unfold py_min, py_max, num_lt.
  destruct (PyFloat.SFcompare_Z (Prim2SF y) 255) as [[] |] eqn:Hhi;
    try (exists 255; split; [reflexivity | lia]).
  destruct (PyFloat.SFcompare_Z (Prim2SF y) 0) as [[] |] eqn:H0;
    try (exists 0; split; [reflexivity | lia]).
  destruct (SFtrunc_between _ _ Hhi H0) as (v & Hv & Hr).
  exists v. split; [exact Hv | lia].
Qed.

Lemma modulate_brightness_channels (c : color) (k : float) :
  Forall (fun ch => 0 <= ch <= 255) c ->
  exists k' out,
    py_max (Float 0) (py_min (Float 2) (Float k)) = Float k' /\
    (0 <=? k')%float = true /\ (k' <=? 2)%float = true /\
    modulate_brightness c k =
      mapM (fun ch => x <- num_mul (Int ch) (Float k') ;;
                      py_int (py_max (Int 0) (py_min (Int 255) x))) c /\
    modulate_brightness c k = Ok out /\
    List.length out = List.length c /\
    Forall (fun ch => 0 <= ch <= 255) out.
Proof.
  intros Hc. destruct (clamp_multiplier k) as (k' & Hk & H0 & H2).
  assert (Hm : modulate_brightness c k =
               mapM (fun ch => x <- num_mul (Int ch) (Float k') ;;
                               py_int (py_max (Int 0) (py_min (Int 255) x))) c).
  { unfold modulate_brightness. rewrite Hk. reflexivity. }
  destruct (mapM_Forall _ _ (fun ch => 0 <= ch <= 255) c
              (fun ch H => channel_clamped ch k' H) Hc) as (out & Hout & Hr & Hl).
  exists k', out. rewrite Hm. repeat split; assumption.
Qed.


(** C8: the multiplier is clamped to [0, 2] before it is applied, and every
    channel of the result lies in [0, 255], for every colour with channels
    in [0, 255] and every float [k]; the on-colour at 2.0 becomes
    (80, 255, 255). *)
Theorem modulate_brightness_clamped (c : color) (k : float) :
  Forall (fun ch => 0 <= ch <= 255) c ->
  exists k' out,
    py_max (Float 0) (py_min (Float 2) (Float k)) = Float k' /\
    (0 <=? k')%float = true /\ (k' <=? 2)%float = true /\
    modulate_brightness c k =
      mapM (fun ch => x <- num_mul (Int ch) (Float k') ;;
                      py_int (py_max (Int 0) (py_min (Int 255) x))) c /\
    modulate_brightness c k = Ok out /\
    List.length out = List.length c /\
    Forall (fun ch => 0 <= ch <= 255) out /\
    modulate_brightness (LED_ON clock_config) 2 = Ok [80; 255; 255].
Proof.
  intros Hc. destruct (modulate_brightness_channels c k Hc) as (k' & out & H).
  exists k', out.
  destruct H as (Hk & H0 & H2 & Hm & Hout & Hl & Hr).
  split; [exact Hk|]. split; [exact H0|]. split; [exact H2|]. split; [exact Hm|].
  split; [exact Hout|]. split; [exact Hl|]. split; [exact Hr|].
  vm_compute. reflexivity.
Qed.

Lemma modulate_brightness_clamped_witness :
  exists k' out,
    py_max (Float 0) (py_min (Float 2) (Float 2.5)) = Float k' /\
    (0 <=? k')%float = true /\ (k' <=? 2)%float = true /\
    modulate_brightness [40; 200; 255] 2.5 =
      mapM (fun ch => x <- num_mul (Int ch) (Float k') ;;
                      py_int (py_max (Int 0) (py_min (Int 255) x))) [40; 200; 255] /\
    modulate_brightness [40; 200; 255] 2.5 = Ok out /\
    List.length out = 3%nat /\
    Forall (fun ch => 0 <= ch <= 255) out /\
    modulate_brightness (LED_ON clock_config) 2 = Ok [80; 255; 255].
Proof.
  apply (modulate_brightness_clamped [40; 200; 255] 2.5).
  repeat constructor; lia.
Defined.

(** * The visual effects *)

Lemma Prim2SF_zero_cases (z : float) :
  PyFloat.is_zero_sf (Prim2SF z) = true -> z = zero \/ z = neg_zero.
Proof.
  intros H. destruct (Prim2SF z) as [s| | |] eqn:E; try discriminate.
  destruct s; [right | left]; apply Prim2SF_inj; rewrite E; reflexivity.
Qed.

Lemma mul_zero_r (c : float) :
  PyFloat.finite c = true -> PyFloat.is_zero_sf (Prim2SF (c * 0)%float) = true.
Proof.
  unfold PyFloat.finite. intros H. rewrite mul_spec.
  change (Prim2SF 0) with (S754_zero false).
  destruct (Prim2SF c); try discriminate; reflexivity.
Qed.

Lemma mul_by_zero (c z : float) :
  PyFloat.finite c = true -> PyFloat.is_zero_sf (Prim2SF z) = true ->
  PyFloat.is_zero_sf (Prim2SF (c * z)%float) = true.
Proof.
  unfold PyFloat.finite. intros H Hz. rewrite mul_spec.
  destruct (Prim2SF z); try discriminate.
  destruct (Prim2SF c); try discriminate; reflexivity.
Qed.

Lemma one_plus_zero (z : float) :
  PyFloat.is_zero_sf (Prim2SF z) = true -> (1 + z)%float = 1%float.
Proof.
  intros Hz. destruct (Prim2SF_zero_cases z Hz) as [-> | ->]; reflexivity.
Qed.

Lemma math_sin_finite (env : Env) (x : float) :
  PyFloat.finite (libm_sin env x) = true -> math_sin env x = Ok (libm_sin env x).
Proof.
  unfold math_sin, PyFloat.finite. intros H.
  rewrite (is_nan_spec (libm_sin env x)), (is_infinity_spec (libm_sin env x)).
  destruct (Prim2SF (libm_sin env x)); try discriminate; reflexivity.
Qed.

Lemma math_sin_zero (env : Env) (z : float) :
  libm_ok env -> PyFloat.is_zero_sf (Prim2SF z) = true -> math_sin env z = Ok z.
Proof.
  intros [Hz _] H. pose proof (Hz z H) as E.
  rewrite <- E at 2. apply math_sin_finite. rewrite E.
  unfold PyFloat.finite. destruct (Prim2SF z); try discriminate; reflexivity.
Qed.

Lemma pulse_factor_enabled (env : Env) (cfg : Config) (t : float) :
  PULSE_ENABLED cfg = true ->
  pulse_factor env cfg t =
    (s <- math_sin env (2 * math_pi * PULSE_FREQ cfg * t)%float ;;
     Ok (1 + PULSE_DEPTH cfg * s)%float).
Proof. intros H. unfold pulse_factor. rewrite H. reflexivity. Qed.

Lemma pulse_factor_at_zero (env : Env) (cfg : Config) :
  libm_ok env -> PULSE_ENABLED cfg = true ->
  PyFloat.finite (2 * math_pi * PULSE_FREQ cfg)%float = true ->
  PyFloat.finite (PULSE_DEPTH cfg) = true ->
  pulse_factor env cfg 0 = Ok 1%float.
Proof.
  intros Henv Hen Hf Hd. rewrite (pulse_factor_enabled env cfg 0 Hen).
  pose proof (mul_zero_r _ Hf) as Hx.
  rewrite (math_sin_zero env _ Henv Hx). unfold bind.
  rewrite (one_plus_zero _ (mul_by_zero _ _ Hd Hx)). reflexivity.
Qed.

Lemma sample_env_ok : libm_ok sample_env.
Proof.
  split; simpl; unfold sample_sin.
  - intros z Hz. rewrite is_nan_spec, is_infinity_spec, is_zero_spec, Hz.
    destruct (Prim2SF z); try discriminate; reflexivity.
  - intros x Hx. pose proof Hx as Hx'. unfold PyFloat.finite in Hx'.
    rewrite is_nan_spec, is_infinity_spec.
    destruct (Prim2SF x); try discriminate; simpl;
      destruct (is_zero x); try exact Hx; destruct (abs x <? 1)%float; try exact Hx; reflexivity.
Qed.

(** C7: with the pulse switched off the factor is 1.0 at every [t]; with it
    on, it is [1 + depth * sin(2 pi freq t)] (the sine being the C
    library's whenever that is a number); at [t = 0] it is exactly 1.0 for
    every frequency [freq] for which [2 pi freq] is a number, and every
    depth that is a number. *)
Theorem pulse_factor_formula (env : Env) (cfg : Config) (t : float) :
  (PULSE_ENABLED cfg = false -> pulse_factor env cfg t = Ok 1%float) /\
  (PULSE_ENABLED cfg = true ->
     pulse_factor env cfg t =
       (s <- math_sin env (2 * math_pi * PULSE_FREQ cfg * t)%float ;;
        Ok (1 + PULSE_DEPTH cfg * s)%float) /\
     (PyFloat.finite (libm_sin env (2 * math_pi * PULSE_FREQ cfg * t)%float) = true ->
      pulse_factor env cfg t =
        Ok (1 + PULSE_DEPTH cfg * libm_sin env (2 * math_pi * PULSE_FREQ cfg * t))%float)) /\
  (PULSE_ENABLED cfg = true -> libm_ok env ->
     PyFloat.finite (2 * math_pi * PULSE_FREQ cfg)%float = true ->
     PyFloat.finite (PULSE_DEPTH cfg) = true ->
     pulse_factor env cfg 0 = Ok 1%float).
Proof.
  split; [|split].
  - intros H. unfold pulse_factor. rewrite H. reflexivity.
  - intros H. split; [apply pulse_factor_enabled, H|].
    intros Hs. rewrite (pulse_factor_enabled env cfg t H), (math_sin_finite env _ Hs).
    reflexivity.
  - intros H Henv Hf Hd. apply pulse_factor_at_zero; assumption.
Qed.

Lemma pulse_factor_formula_witness :
  pulse_factor sample_env (with_pulse false 0.25 clock_config) 3 = Ok 1%float /\
  pulse_factor sample_env clock_config 0.5 =
    Ok (1 + 0.25 * sample_sin (2 * math_pi * 0.25 * 0.5))%float /\
  pulse_factor sample_env clock_config 0 = Ok 1%float.
Proof.
  split; [|split].
  - apply (proj1 (pulse_factor_formula sample_env (with_pulse false 0.25 clock_config) 3)).
    reflexivity.
  - apply (proj1 (proj2 (pulse_factor_formula sample_env clock_config 0.5))); reflexivity.
  - apply (proj2 (proj2 (pulse_factor_formula sample_env clock_config 0)));
      try reflexivity. exact sample_env_ok.
Defined.

Lemma Ok_nan_neq_one : Ok nan <> Ok 1%float.
Proof.
  intros H.
  apply (f_equal (fun r => match r with Ok x => is_nan x | Raise _ => false end)) in H.
  vm_compute in H. discriminate.
Qed.

(** C7, as stated, fails: at 1e308 Hz the product [2 pi freq] overflows to
    an infinity, the argument of the sine at [t = 0] is a NaN, and so is the
    factor. *)
Lemma pulse_factor_at_zero_not_for_all_frequencies :
  ~ (forall (env : Env) (cfg : Config),
       libm_ok env -> PULSE_ENABLED cfg = true -> pulse_factor env cfg 0 = Ok 1%float).
Proof.
  intros H.
  specialize (H sample_env (with_pulse true huge_freq clock_config) sample_env_ok eq_refl).
  vm_compute in H. exact (Ok_nan_neq_one H).
Qed.

(** The same for every C library: its sine of a NaN is a NaN. *)
Lemma pulse_factor_overflow (env : Env) :
  is_nan (libm_sin env nan) = true ->
  pulse_factor env (with_pulse true huge_freq clock_config) 0 = Ok nan.
Proof.
  intros Hn. unfold pulse_factor. cbn [PULSE_ENABLED with_pulse negb PULSE_FREQ PULSE_DEPTH].
  change (2 * math_pi * huge_freq * 0)%float with nan.
  unfold math_sin. rewrite Hn. change (is_nan nan) with true. cbn [negb andb].
  rewrite is_nan_spec in Hn. rewrite is_infinity_spec.
  destruct (Prim2SF (libm_sin env nan)) eqn:E; try discriminate. cbn [PyFloat.is_inf_sf andb bind].
  assert (libm_sin env nan = nan) as -> by (apply Prim2SF_inj; rewrite E; reflexivity).
  reflexivity.
Qed.

Lemma colon_visible_enabled (cfg : Config) (t P r : float) :
  COLON_ENABLED cfg = true ->
  PyFloat.div 1 (COLON_BLINK_FREQ cfg) = Ok P -> PyFloat.rem t P = Ok r ->
  colon_visible cfg t = Ok (r <? P / 2)%float.
Proof.
  intros He HP Hr. unfold colon_visible. rewrite He, HP. cbn [negb bind].
  rewrite Hr. reflexivity.
Qed.

Lemma period_is_inverse (f P : float) :
  PyFloat.div 1 f = Ok P -> P = (1 / f)%float.
Proof. unfold PyFloat.div. destruct (is_zero f); [discriminate|]. congruence. Qed.

(** C6: with the colon switched off it is never visible; with it on,
    visibility at [t] is decided by [r = t % P] alone, [P = 1 / frequency]:
    visible when [0 <= r < P/2], hidden when [P/2 <= r < P]. *)
Theorem colon_visible_blink (cfg : Config) (t : float) :
  (COLON_ENABLED cfg = false -> colon_visible cfg t = Ok false) /\
  (COLON_ENABLED cfg = true -> forall P r,
     PyFloat.div 1 (COLON_BLINK_FREQ cfg) = Ok P -> PyFloat.rem t P = Ok r ->
     P = (1 / COLON_BLINK_FREQ cfg)%float /\
     ((0 <=? r)%float = true -> (r <? P / 2)%float = true ->
      colon_visible cfg t = Ok true) /\
     ((P / 2 <=? r)%float = true -> (r <? P)%float = true ->
      colon_visible cfg t = Ok false) /\
     (forall t', PyFloat.rem t' P = Ok r -> colon_visible cfg t' = colon_visible cfg t)).
Proof.
  split.
  - intros H. unfold colon_visible. rewrite H. reflexivity.
  - intros He P r HP Hr.
    pose proof (colon_visible_enabled cfg t P r He HP Hr) as Hv.
    split; [apply period_is_inverse, HP|]. split; [|split].
    + intros _ H. rewrite Hv, H. reflexivity.
    + intros H _. rewrite Hv, (ltb_leb_false _ _ H). reflexivity.
    + intros t' Hr'. rewrite Hv. apply (colon_visible_enabled cfg t' P r He HP Hr').
Qed.

Lemma colon_visible_blink_witness :
  colon_visible (with_colon false clock_config) 21.25 = Ok false /\
  colon_visible clock_config 21.25 = Ok true /\
  colon_visible clock_config 21.75 = Ok false /\
  colon_visible clock_config 3.25 = colon_visible clock_config 21.25.
Proof.
  split; [|split; [|split]].
  - apply (proj1 (colon_visible_blink (with_colon false clock_config) 21.25)). reflexivity.
  - apply (proj2 (colon_visible_blink clock_config 21.25) eq_refl 1%float 0.25%float);
      reflexivity.
  - apply (proj2 (colon_visible_blink clock_config 21.75) eq_refl 1%float 0.75%float);
      reflexivity.
  - apply (proj2 (colon_visible_blink clock_config 21.25) eq_refl 1%float 0.25%float);
      reflexivity.
Defined.

(** * The scroll offset *)













Lemma total_scrollable_lines_pos (lines : list string) : 1 <= total_scrollable_lines lines.
Proof. unfold total_scrollable_lines. lia. Qed.


Lemma start_line_range (cfg : Config) (lines : list string) (t : float) (first : Z) :
  start_line cfg lines t = Ok first -> 0 <= first < total_scrollable_lines lines.
Proof.
  unfold start_line. pose proof (total_scrollable_lines_pos lines) as Hn.
  destruct (PyFloat.int_truediv _ _); [|discriminate]. cbn [bind].
  destruct (PyFloat.trunc _); [|discriminate]. cbn [bind].
  intros H. injection H as <-. apply Z.mod_pos_bound. lia.
Qed.






(** * No failed assertion *)

Ltac no_assert_cases :=
  unfold no_assert, bind;
  repeat match goal with
         | |- context [match ?x with _ => _ end] => destruct x
         end;
  discriminate.

Lemma no_assert_bind {A B : Type} (r : result A) (k : A -> result B) :
  no_assert r -> (forall a, no_assert (k a)) -> no_assert (bind r k).
Proof.
  unfold no_assert. intros Hr Hk. destruct r as [a|e]; simpl; [apply Hk|].
  intros H. apply Hr. injection H as ->. reflexivity.
Qed.

Lemma no_assert_Ok {A : Type} (a : A) : no_assert (Ok a).
Proof. unfold no_assert. discriminate. Qed.

Lemma no_assert_mapM {A B : Type} (f : A -> result B) (l : list A) :
  (forall a, no_assert (f a)) -> no_assert (mapM f l).
Proof.
  intros Hf. induction l as [|a l IH]; simpl; [apply no_assert_Ok|].
  apply no_assert_bind; [apply Hf|]. intros b.
  apply no_assert_bind; [exact IH|]. intros bs. apply no_assert_Ok.
Qed.

Lemma no_assert_foldM {A S : Type} (f : S -> A -> result S) (l : list A) :
  Forall (fun a => forall s, no_assert (f s a)) l -> forall s, no_assert (foldM f l s).
Proof.
  induction 1 as [|a l Ha Hl IH]; intros s; simpl; [apply no_assert_Ok|].
  apply no_assert_bind; [apply Ha | exact IH].
Qed.

Lemma no_assert_of_int (z : Z) : no_assert (PyFloat.of_int z).
Proof. unfold PyFloat.of_int. no_assert_cases. Qed.

Lemma no_assert_trunc (x : float) : no_assert (PyFloat.trunc x).
Proof. unfold PyFloat.trunc, PyFloat.SFtrunc. no_assert_cases. Qed.

Lemma no_assert_int_truediv (a b : Z) : no_assert (PyFloat.int_truediv a b).
Proof.
  unfold PyFloat.int_truediv.
  destruct (b =? 0); [discriminate|].
  destruct (_ && _).
  - apply no_assert_bind; [apply no_assert_of_int|]. intros da.
    apply no_assert_bind; [apply no_assert_of_int|]. intros db. apply no_assert_Ok.
  - destruct (PyFloat.SFint_truediv a b); discriminate.
Qed.

Lemma no_assert_div (x y : float) : no_assert (PyFloat.div x y).
Proof. unfold PyFloat.div. no_assert_cases. Qed.

Lemma no_assert_rem (x y : float) : no_assert (PyFloat.rem x y).
Proof.
  unfold PyFloat.rem, no_assert.
  destruct (is_zero y); [discriminate|].
  destruct (is_zero _); [discriminate|].
  destruct (negb _); discriminate.
Qed.

Lemma no_assert_index {A : Type} (l : list A) (i : Z) : no_assert (index l i).
Proof. unfold index. no_assert_cases. Qed.

Lemma no_assert_math_sin (env : Env) (x : float) : no_assert (math_sin env x).
Proof. unfold math_sin. no_assert_cases. Qed.

Lemma no_assert_pulse_factor (env : Env) (cfg : Config) (t : float) :
  no_assert (pulse_factor env cfg t).
Proof.
  unfold pulse_factor. destruct (negb _); [apply no_assert_Ok|].
  apply no_assert_bind; [apply no_assert_math_sin|]. intros s. apply no_assert_Ok.
Qed.

Lemma no_assert_num_mul (a b : num) : no_assert (num_mul a b).
Proof.
  destruct a, b; simpl; try apply no_assert_Ok;
    (apply no_assert_bind; [apply no_assert_of_int | intros; apply no_assert_Ok]).
Qed.

Lemma no_assert_py_int (a : num) : no_assert (py_int a).
Proof. destruct a; simpl; [apply no_assert_Ok | apply no_assert_trunc]. Qed.

Lemma no_assert_modulate_brightness (c : color) (k : float) :
  no_assert (modulate_brightness c k).
Proof.
  unfold modulate_brightness. apply no_assert_mapM. intros ch.
  apply no_assert_bind; [apply no_assert_num_mul|]. intros x. apply no_assert_py_int.
Qed.

Lemma no_assert_colon_visible (cfg : Config) (t : float) : no_assert (colon_visible cfg t).
Proof.
  unfold colon_visible. destruct (negb _); [apply no_assert_Ok|].
  apply no_assert_bind; [apply no_assert_div|]. intros P.
  apply no_assert_bind; [apply no_assert_rem|]. intros r. apply no_assert_Ok.
Qed.

Lemma no_assert_start_line (cfg : Config) (lines : list string) (t : float) :
  no_assert (start_line cfg lines t).
Proof.
  unfold start_line.
  apply no_assert_bind; [apply no_assert_int_truediv|]. intros s.
  apply no_assert_bind; [apply no_assert_trunc|]. intros n. apply no_assert_Ok.
Qed.

Lemma no_assert_draw_code_overlay (env : Env) (cfg : Config) (img : Image)
    (lines : list string) (t : float) :
  no_assert (draw_code_overlay env cfg img lines t).
Proof.
  unfold draw_code_overlay. destruct (_ || _); [apply no_assert_Ok|].
  apply no_assert_bind; [apply no_assert_start_line|]. intros first.
  apply no_assert_bind.
  { apply no_assert_mapM. intros c.
    apply no_assert_bind; [apply no_assert_of_int|]. intros c'. apply no_assert_trunc. }
  intros fill. apply no_assert_foldM. apply Forall_forall. intros [i line_idx] _ s.
  destruct (line_idx <? _); [|apply no_assert_Ok].
  apply no_assert_bind; [apply no_assert_index|]. intros line.
  destruct (text_draws _ _ _); apply no_assert_Ok.
Qed.

Lemma no_assert_draw_bit (cfg : Config) (positions : list (list (Z * Z))) (k : float)
    (col_idx : Z) (img : Image) (rb : Z * Z) :
  no_assert (draw_bit cfg positions k col_idx img rb).
Proof.
  unfold draw_bit. destruct rb as [row_idx bit].
  apply no_assert_bind; [apply no_assert_index|]. intros column.
  apply no_assert_bind; [apply no_assert_index|]. intros [cx cy].
  apply no_assert_bind; [apply no_assert_modulate_brightness|]. intros c.
  apply no_assert_Ok.
Qed.

Lemma no_assert_draw_digit (cfg : Config) (positions : list (list (Z * Z))) (k : float)
    (img : Image) (col_idx d : Z) :
  0 <= d <= 9 -> no_assert (draw_digit cfg positions k img (col_idx, d)).
Proof.
  intros Hd. unfold draw_digit. rewrite (bcd_bits_in_range d Hd). cbn [bind].
  apply no_assert_foldM. apply Forall_forall. intros rb _ s. apply no_assert_draw_bit.
Qed.

Lemma no_assert_draw_colon (cfg : Config) (positions : list (list (Z * Z))) (img : Image) :
  no_assert (draw_colon cfg positions img).
Proof.
  unfold draw_colon.
  repeat (apply no_assert_bind; [apply no_assert_index|]; intros ?).
  apply no_assert_Ok.
Qed.

Lemma frame_digits_cases (t : float) :
  frame_digits t = [0; 4; 4; 3] \/ frame_digits t = [0; 4; 4; 4].
Proof.
  destruct (t <? 22)%float eqn:E;
    [left; apply frame_digits_before | right; apply frame_digits_after]; exact E.
Qed.

Lemma frame_digits_in_range (t : float) :
  Forall (fun d => 0 <= d <= 9) (frame_digits t).
Proof.
  destruct (frame_digits_cases t) as [-> | ->]; repeat (apply Forall_cons; [lia|]);
    apply Forall_nil.
Qed.

Lemma enumerate_snd_In {A : Type} (l : list A) (i : Z) (a : A) :
  In (i, a) (enumerate l) -> In a l.
Proof. unfold enumerate. apply in_combine_r. Qed.

Lemma no_assert_render_frame (env : Env) (cfg : Config) (t : float)
    (positions : list (list (Z * Z))) (lines : list string) :
  no_assert (render_frame env cfg t positions lines).
Proof.
  unfold render_frame.
  apply no_assert_bind; [apply no_assert_draw_code_overlay|]. intros img.
  apply no_assert_bind; [apply no_assert_pulse_factor|]. intros k.
  apply no_assert_bind.
  { apply no_assert_foldM. apply Forall_forall. intros [col_idx d] Hin s.
    apply no_assert_draw_digit.
    apply enumerate_snd_In in Hin.
    pose proof (frame_digits_in_range t) as Hr.
    rewrite Forall_forall in Hr. apply Hr, Hin. }
  intros img'.
  apply no_assert_bind; [apply no_assert_colon_visible|]. intros visible.
  destruct visible; [apply no_assert_draw_colon | apply no_assert_Ok].
Qed.

Lemma no_assert_write_frames (env : Env) (cfg : Config) (positions : list (list (Z * Z)))
    (lines : list string) (frames : list Z) :
  forall w, no_assert (fst (write_frames env cfg positions lines frames w)).
Proof.
  induction frames as [|i rest IH]; intros w; simpl; [apply no_assert_Ok|].
  assert (H : no_assert (frame_at env cfg positions lines i)).
  { unfold frame_at. apply no_assert_bind; [apply no_assert_int_truediv|].
    intros t. apply no_assert_render_frame. }
  destruct (frame_at env cfg positions lines i) as [img|e]; [apply IH|].
  unfold no_assert in *. simpl. intros E. apply H. injection E as ->. reflexivity.
Qed.

(** C10: at every timestamp the four digits shown lie in 0..9 and
    [bcd_bits] accepts each of them, so neither one frame nor a whole run
    can end on the assertion of [bcd_bits], whatever the configuration, the
    grid, the text and the outside world are. *)
Theorem digit_assertion_unreachable (t : float) :
  List.length (frame_digits t) = 4%nat /\
  Forall (fun d => 0 <= d <= 9 /\ exists bits, bcd_bits d = Ok bits) (frame_digits t) /\
  (forall env cfg positions lines,
     render_frame env cfg t positions lines <> Raise AssertionError) /\
  (forall env cfg lines, fst (main_mp4 env cfg lines) <> Raise AssertionError).
Proof.
  split; [|split; [|split]].
  - destruct (frame_digits_cases t) as [-> | ->]; reflexivity.
  - pose proof (frame_digits_in_range t) as H.
    rewrite Forall_forall in *. intros d Hd. split; [apply H, Hd|].
    eexists. apply bcd_bits_in_range, H, Hd.
  - intros env cfg positions lines. apply no_assert_render_frame.
  - intros env cfg lines. unfold main_mp4.
    pose proof (no_assert_write_frames env cfg (compute_grid_positions cfg) lines
                  (range (DURATION_SEC cfg * FPS cfg)) get_writer) as H.
    destruct (write_frames _ _ _ _ _ _) as [outcome w]. exact H.
Qed.

(** * Invalid configurations *)

Lemma range_nonpos (n : Z) : n <= 0 -> range n = [].
Proof. intros H. unfold range. destruct n; try lia; reflexivity. Qed.

Lemma main_mp4_no_frames (env : Env) (cfg : Config) (lines : list string) :
  DURATION_SEC cfg * FPS cfg <= 0 ->
  main_mp4 env cfg lines = (Ok tt, {| appended := []; closed := true |}).
Proof. intros H. unfold main_mp4. rewrite (range_nonpos _ H). reflexivity. Qed.

(** C4, as amended: [bcd_bits] succeeds on 0..9 and raises on every other
    integer; a negative duration or rate is not rejected: when their product
    is not positive the loop body never runs, and the run ends normally with
    no frame rendered and the writer closed. *)
Theorem bcd_bits_fails_fast_only (d : Z) :
  (0 <= d <= 9 -> exists bits, bcd_bits d = Ok bits) /\
  (d < 0 \/ 9 < d -> bcd_bits d = Raise AssertionError) /\
  (forall env cfg lines, DURATION_SEC cfg * FPS cfg <= 0 ->
     main_mp4 env cfg lines = (Ok tt, {| appended := []; closed := true |})).
Proof.
  split; [|split].
  - intros H. eexists. apply bcd_bits_in_range, H.
  - apply bcd_bits_out_of_range.
  - apply main_mp4_no_frames.
Qed.

Lemma bcd_bits_fails_fast_only_witness :
  (exists bits, bcd_bits 7 = Ok bits) /\
  bcd_bits 10 = Raise AssertionError /\
  bcd_bits (-1) = Raise AssertionError /\
  main_mp4 sample_env (with_duration (-44) clock_config) sample_lines =
    (Ok tt, {| appended := []; closed := true |}).
Proof.
  split; [|split; [|split]].
  - apply (proj1 (bcd_bits_fails_fast_only 7)). lia.
  - apply (proj1 (proj2 (bcd_bits_fails_fast_only 10))). lia.
  - apply (proj1 (proj2 (bcd_bits_fails_fast_only (-1)))). lia.
  - apply (proj2 (proj2 (bcd_bits_fails_fast_only 0))). simpl. lia.
Defined.

(** C4, as stated, fails: a run configured with a duration of -44 seconds
    raises nothing. *)
Lemma negative_duration_is_not_fatal :
  ~ (forall env cfg lines,
       DURATION_SEC cfg < 0 \/ FPS cfg < 0 ->
       exists e, fst (main_mp4 env cfg lines) = Raise e).
Proof.
  intros H.
  destruct (H sample_env (with_duration (-44) clock_config) sample_lines) as [e He].
  - left. simpl. lia.
  - rewrite main_mp4_no_frames in He by (simpl; lia). discriminate.
Qed.

(** * Every frame of the shipped run renders *)











Lemma In_range (n x : Z) : In x (range n) -> 0 <= x < n.
Proof.
  unfold range. rewrite in_map_iff. intros (k & <- & Hk). apply in_seq in Hk. lia.
Qed.

Lemma In_range2 (a b x : Z) : In x (range2 a b) -> a <= x < b.
Proof.
  unfold range2. rewrite in_map_iff. intros (k & <- & Hk). apply In_range in Hk. lia.
Qed.










Lemma colon_visible_ok (t : float) : exists visible, colon_visible clock_config t = Ok visible.
Proof.
  unfold colon_visible. cbn [COLON_ENABLED clock_config negb COLON_BLINK_FREQ].
  assert (E : PyFloat.div 1 1 = Ok 1%float) by reflexivity. rewrite E. cbn [bind].
  unfold PyFloat.rem. change (is_zero 1) with false. cbv iota.
  destruct (is_zero _); [eexists; reflexivity|].
  destruct (negb _); eexists; reflexivity.
Qed.



(** * The frame sequence *)

Lemma nth_error_range (n i : Z) :
  0 <= i < n -> nth_error (range n) (Z.to_nat i) = Some i.
Proof.
  intros Hi. unfold range. rewrite nth_error_map, nth_error_seq.
  replace (Z.to_nat i <? Z.to_nat n)%nat with true
    by (symmetry; apply Nat.ltb_lt; lia).
  simpl. f_equal. lia.
Qed.

Lemma range_length (n : Z) : List.length (range n) = Z.to_nat n.
Proof. unfold range. rewrite length_map, length_seq. reflexivity. Qed.









(** * The frame loop in general *)

Lemma write_frames_prefix (env : Env) (cfg : Config) (positions : list (list (Z * Z)))
    (lines : list string) (indices : list Z) :
  forall w, exists (k : nat) (frames : list Image),
    (k <= List.length indices)%nat /\
    snd (write_frames env cfg positions lines indices w) =
      {| appended := appended w ++ frames; closed := closed w |} /\
    Forall2 (fun i frame => frame_at env cfg positions lines i = Ok frame)
            (firstn k indices) frames /\
    ((k = List.length indices /\
      fst (write_frames env cfg positions lines indices w) = Ok tt) \/
     (exists i e, nth_error indices k = Some i /\
                  frame_at env cfg positions lines i = Raise e /\
                  fst (write_frames env cfg positions lines indices w) = Raise e)).
Proof.
  induction indices as [|i rest IH]; intros w.
  - exists 0%nat, []. simpl. rewrite app_nil_r. destruct w.
    split; [lia|]. split; [reflexivity|]. split; [constructor|].
    left. split; reflexivity.
  - simpl. destruct (frame_at env cfg positions lines i) as [frame|e] eqn:Ei.
    + destruct (IH (append_data w frame)) as (k & frames & Hk & Hw & Hf & Hend).
      exists (S k), (frame :: frames). split; [lia|]. split; [|split].
      * rewrite Hw. simpl. rewrite <- app_assoc. reflexivity.
      * simpl. constructor; assumption.
      * destruct Hend as [[-> Hok] | (j & e & Hj & He & Hr)].
        -- left. split; [reflexivity | exact Hok].
        -- right. exists j, e. repeat split; assumption.
    + exists 0%nat, []. simpl. rewrite app_nil_r. destruct w.
      split; [lia|]. split; [reflexivity|]. split; [constructor|].
      right. exists i, e. repeat split; assumption.
Qed.

Lemma firstn_seq_le (k : nat) : forall a n,
  (k <= n)%nat -> firstn k (seq a n) = seq a k.
Proof.
  induction k as [|k IH]; intros a n Hk; [reflexivity|].
  destruct n as [|n]; [lia|]. simpl. f_equal. apply IH. lia.
Qed.

Lemma firstn_range (k : nat) (n : Z) :
  (k <= List.length (range n))%nat -> firstn k (range n) = range (Z.of_nat k).
Proof.
  unfold range. rewrite length_map, length_seq. intros Hk.
  rewrite firstn_map, firstn_seq_le, Nat2Z.id by exact Hk. reflexivity.
Qed.

Lemma nth_error_range_nat (k : nat) (n i : Z) :
  nth_error (range n) k = Some i -> i = Z.of_nat k /\ i < n.
Proof.
  unfold range. rewrite nth_error_map, nth_error_seq.
  destruct (k <? Z.to_nat n)%nat eqn:E; [|discriminate].
  apply Nat.ltb_lt in E. simpl. intros H. injection H as <-. lia.
Qed.

(** X1: whatever the configuration, the text and the outside world,
    [main_mp4] appends the frames of the indices [0 .. n-1] in this order,
    for some [n]; either [n] is the whole frame count and the run ends
    normally, or frame [n] is the first that fails to render and the run
    ends with that very exception; in both cases the writer is closed. *)
Theorem main_mp4_appends_prefix_and_closes (env : Env) (cfg : Config) (lines : list string) :
  let positions := compute_grid_positions cfg in
  let total_frames := DURATION_SEC cfg * FPS cfg in
  exists (n : Z) (frames : list Image),
    0 <= n <= Z.max 0 total_frames /\
    snd (main_mp4 env cfg lines) = {| appended := frames; closed := true |} /\
    List.length frames = Z.to_nat n /\
    Forall2 (fun i frame => frame_at env cfg positions lines i = Ok frame) (range n) frames /\
    ((n = Z.max 0 total_frames /\ fst (main_mp4 env cfg lines) = Ok tt) \/
     (n < total_frames /\
      exists e, frame_at env cfg positions lines n = Raise e /\
                fst (main_mp4 env cfg lines) = Raise e)).
Proof.
  cbv zeta.
  destruct (write_frames_prefix env cfg (compute_grid_positions cfg) lines
              (range (DURATION_SEC cfg * FPS cfg)) get_writer)
    as (k & frames & Hk & Hw & Hf & Hend).
  rewrite (firstn_range k _ Hk) in Hf.
  assert (Hlen : List.length (range (DURATION_SEC cfg * FPS cfg))
                 = Z.to_nat (DURATION_SEC cfg * FPS cfg)) by apply range_length.
  exists (Z.of_nat k), frames. unfold main_mp4.
  destruct (write_frames env cfg (compute_grid_positions cfg) lines
              (range (DURATION_SEC cfg * FPS cfg)) get_writer) as [outcome w].
  simpl in Hw, Hend |- *. subst w. simpl.
  split; [lia|]. split; [reflexivity|]. split; [|split; [exact Hf|]].
  - apply Forall2_length in Hf. rewrite range_length in Hf. lia.
  - destruct Hend as [[-> Hok] | (i & e & Hi & He & Hr)].
    + left. split; [lia | exact Hok].
    + right. apply nth_error_range_nat in Hi. destruct Hi as [-> Hlt].
      split; [exact Hlt|]. exists e. split; assumption.
Qed.

(** * Digits of any time *)

Lemma bcd_bits_ok_iff (d : Z) : (exists bits, bcd_bits d = Ok bits) <-> 0 <= d <= 9.
Proof.
  split.
  - intros [bits H]. destruct (Z_le_dec 0 d) as [H0|H0]; destruct (Z_le_dec d 9) as [H9|H9];
      try lia; rewrite bcd_bits_out_of_range in H by lia; discriminate.
  - intros H. eexists. apply bcd_bits_in_range, H.
Qed.

(** X2: for every hour and minute, [digits_for_time] returns four digits
    that give the hour and the minute back ([10 * tens + ones]), the ones
    always in 0..9; all four are accepted by [bcd_bits] exactly when the
    hour and the minute both lie in 0..99. *)
Theorem digits_for_time_roundtrip (h m : Z) :
  exists ht ho mt mo,
    digits_for_time h m = [ht; ho; mt; mo] /\
    10 * ht + ho = h /\ 10 * mt + mo = m /\
    0 <= ho <= 9 /\ 0 <= mo <= 9 /\
    ((forall d, In d (digits_for_time h m) -> exists bits, bcd_bits d = Ok bits) <->
     (0 <= h <= 99 /\ 0 <= m <= 99)).
Proof.
  exists (h / 10), (h mod 10), (m / 10), (m mod 10).
  pose proof (Z.div_mod h 10 ltac:(lia)) as Hh. pose proof (Z.div_mod m 10 ltac:(lia)) as Hm.
  pose proof (Z.mod_pos_bound h 10 ltac:(lia)) as Bh.
  pose proof (Z.mod_pos_bound m 10 ltac:(lia)) as Bm.
  split; [reflexivity|]. split; [lia|]. split; [lia|]. split; [lia|]. split; [lia|].
  unfold digits_for_time. split.
  - intros H.
    assert (H1 : 0 <= h / 10 <= 9) by (apply bcd_bits_ok_iff, H; simpl; auto).
    assert (H2 : 0 <= m / 10 <= 9) by (apply bcd_bits_ok_iff, H; simpl; auto).
    lia.
  - intros [H1 H2] d Hd. apply bcd_bits_ok_iff.
    simpl in Hd. destruct Hd as [<-|[<-|[<-|[<-|[]]]]]; lia.
Qed.

(** * The grid of any configuration *)

Lemma index_range_map {A : Type} (f : Z -> A) (n i : Z) :
  index (map f (range n)) i = if (0 <=? i) && (i <? n) then Ok (f i) else Raise IndexError.
Proof.
  unfold index. destruct (i <? 0) eqn:E0.
  - apply Z.ltb_lt in E0. replace (0 <=? i) with false by (symmetry; apply Z.leb_gt; lia).
    reflexivity.
  - apply Z.ltb_ge in E0. replace (0 <=? i) with true by (symmetry; apply Z.leb_le; lia).
    cbn [andb]. destruct (i <? n) eqn:En.
    + apply Z.ltb_lt in En. rewrite nth_error_map, nth_error_range by lia. reflexivity.
    + apply Z.ltb_ge in En.
      assert (H : nth_error (map f (range n)) (Z.to_nat i) = None).
      { apply nth_error_None. rewrite length_map, range_length. lia. }
      rewrite H. reflexivity.
Qed.

Lemma grid_at_compute (cfg : Config) (col row : Z) :
  grid_at (compute_grid_positions cfg) col row =
  if (0 <=? col) && (col <? GRID_COLS cfg) && (0 <=? row) && (row <? GRID_ROWS cfg)
  then Ok (fst (GRID_CENTER cfg) - COLUMN_SPACING cfg * (GRID_COLS cfg - 1) / 2
             + col * COLUMN_SPACING cfg,
           snd (GRID_CENTER cfg) - ROW_SPACING cfg * (GRID_ROWS cfg - 1) / 2
             + row * ROW_SPACING cfg)
  else Raise IndexError.
Proof.
  unfold grid_at, compute_grid_positions. destruct (GRID_CENTER cfg) as [cx cy].
  rewrite index_range_map. cbn [fst snd].
  destruct ((0 <=? col) && (col <? GRID_COLS cfg)); [|reflexivity].
  cbn [bind andb]. rewrite index_range_map.
  destruct (0 <=? row); destruct (row <? GRID_ROWS cfg); reflexivity.
Qed.

(** X3: for every configuration the grid has [GRID_COLS] columns of
    [GRID_ROWS] points, any other index is an [IndexError]; neighbours are
    exactly one spacing apart; and the first and the last point are
    mirrored about the centre when the extent [spacing * (count - 1)] is
    even, one pixel off (towards larger coordinates) when it is odd. *)
Theorem grid_positions_layout (cfg : Config) :
  let positions := compute_grid_positions cfg in
  let cols := GRID_COLS cfg in
  let rows := GRID_ROWS cfg in
  let w := COLUMN_SPACING cfg * (cols - 1) in
  let h := ROW_SPACING cfg * (rows - 1) in
  List.length positions = Z.to_nat cols /\
  Forall (fun column => List.length column = Z.to_nat rows) positions /\
  (forall col row,
     (exists xy, grid_at positions col row = Ok xy) <-> (0 <= col < cols /\ 0 <= row < rows)) /\
  (forall col row, ~ (0 <= col < cols /\ 0 <= row < rows) ->
     grid_at positions col row = Raise IndexError) /\
  (forall col row x y, grid_at positions col row = Ok (x, y) ->
     (col + 1 < cols -> grid_at positions (col + 1) row = Ok (x + COLUMN_SPACING cfg, y)) /\
     (row + 1 < rows -> grid_at positions col (row + 1) = Ok (x, y + ROW_SPACING cfg))) /\
  (forall x0 y0 x1 y1,
     grid_at positions 0 0 = Ok (x0, y0) ->
     grid_at positions (cols - 1) (rows - 1) = Ok (x1, y1) ->
     x0 + x1 = 2 * fst (GRID_CENTER cfg) + w mod 2 /\
     y0 + y1 = 2 * snd (GRID_CENTER cfg) + h mod 2).
Proof.
  cbv zeta.
  assert (Hcase : forall col row,
            (0 <=? col) && (col <? GRID_COLS cfg) && (0 <=? row) && (row <? GRID_ROWS cfg) = true
            <-> (0 <= col < GRID_COLS cfg /\ 0 <= row < GRID_ROWS cfg)).
  { intros col row. rewrite !andb_true_iff, !Z.leb_le, !Z.ltb_lt. lia. }
  split; [|split; [|split; [|split; [|split]]]].
  - unfold compute_grid_positions. destruct (GRID_CENTER cfg).
    rewrite length_map, range_length. reflexivity.
  - unfold compute_grid_positions. destruct (GRID_CENTER cfg).
    apply Forall_forall. intros column Hin. apply in_map_iff in Hin.
    destruct Hin as (col & <- & _). rewrite length_map, range_length. reflexivity.
  - intros col row. rewrite grid_at_compute. rewrite <- Hcase.
    destruct (_ && _); split; intros H; try reflexivity; try discriminate.
    + eexists; reflexivity.
    + destruct H; discriminate.
  - intros col row Hn. rewrite grid_at_compute. rewrite <- Hcase in Hn.
    destruct (_ && _); [contradiction Hn; reflexivity | reflexivity].
  - intros col row x y. rewrite !grid_at_compute.
    destruct (_ && _) eqn:E; [|discriminate]. apply Hcase in E.
    intros H. injection H as <- <-. split; intros Hn.
    + replace ((0 <=? col + 1) && (col + 1 <? GRID_COLS cfg) && (0 <=? row)
               && (row <? GRID_ROWS cfg)) with true by (symmetry; apply Hcase; lia).
      f_equal. f_equal; lia.
    + replace ((0 <=? col) && (col <? GRID_COLS cfg) && (0 <=? row + 1)
               && (row + 1 <? GRID_ROWS cfg)) with true by (symmetry; apply Hcase; lia).
      f_equal. f_equal; lia.
  - intros x0 y0 x1 y1. rewrite !grid_at_compute.
    destruct (_ && _); [|discriminate]. destruct (_ && _); [|discriminate].
    intros H0 H1. injection H0 as <- <-. injection H1 as <- <-.
    pose proof (Z.div_mod (COLUMN_SPACING cfg * (GRID_COLS cfg - 1)) 2 ltac:(lia)).
    pose proof (Z.div_mod (ROW_SPACING cfg * (GRID_ROWS cfg - 1)) 2 ltac:(lia)).
    lia.
Qed.

(** * When the colon fails *)

Lemma colon_visible_cases (cfg : Config) (t : float) :
  colon_visible cfg t =
  if negb (COLON_ENABLED cfg) then Ok false
  else if is_zero (COLON_BLINK_FREQ cfg) || is_zero (1 / COLON_BLINK_FREQ cfg)%float
       then Raise ZeroDivisionError
       else r <- PyFloat.rem t (1 / COLON_BLINK_FREQ cfg)%float ;;
            Ok (r <? 1 / COLON_BLINK_FREQ cfg / 2)%float.
Proof.
  unfold colon_visible, PyFloat.div.
  destruct (negb (COLON_ENABLED cfg)); [reflexivity|].
  destruct (is_zero (COLON_BLINK_FREQ cfg)); [reflexivity|]. cbn [bind orb].
  unfold PyFloat.rem. destruct (is_zero (1 / COLON_BLINK_FREQ cfg)%float); reflexivity.
Qed.

Lemma rem_ok (x y : float) : is_zero y = false -> exists r, PyFloat.rem x y = Ok r.
Proof.
  intros H. unfold PyFloat.rem. rewrite H.
  destruct (is_zero (SF2Prim _)); [eexists; reflexivity|].
  destruct (negb _); eexists; reflexivity.
Qed.

(** X7: [colon_visible] fails in one way only: with the colon enabled and
    a blink frequency that is zero, or so large that [1.0 / frequency] is
    zero, it raises [ZeroDivisionError] at every [t]; in every other case it
    returns a boolean at every [t], NaN and the infinities included, as it
    does with the shipped frequency of 1 Hz. *)
Theorem colon_visible_failure (cfg : Config) (t : float) :
  let f := COLON_BLINK_FREQ cfg in
  let degenerate := is_zero f || is_zero (1 / f)%float in
  (COLON_ENABLED cfg = true -> degenerate = true ->
   colon_visible cfg t = Raise ZeroDivisionError) /\
  (COLON_ENABLED cfg = false \/ degenerate = false ->
   exists visible, colon_visible cfg t = Ok visible) /\
  (exists visible, colon_visible clock_config t = Ok visible).
Proof.
  cbv zeta. split; [|split]; [| |apply colon_visible_ok]; rewrite colon_visible_cases.
  - intros -> ->. reflexivity.
  - intros [-> | H]; [eexists; reflexivity|].
    apply orb_false_iff in H. destruct H as [E0 E1]. rewrite E0, E1. cbn [orb].
    destruct (negb _); [eexists; reflexivity|].
    destruct (rem_ok t _ E1) as (r & ->). eexists. reflexivity.
Qed.

Lemma colon_visible_failure_witness :
  colon_visible (with_blink true 0 clock_config) 1.5 = Raise ZeroDivisionError /\
  colon_visible (with_blink true infinity clock_config) 1.5 = Raise ZeroDivisionError /\
  (exists visible, colon_visible (with_blink true 0.5 clock_config) 1.5 = Ok visible) /\
  (exists visible, colon_visible (with_blink false 0 clock_config) 1.5 = Ok visible).
Proof.
  split; [|split; [|split]].
  - apply (proj1 (colon_visible_failure (with_blink true 0 clock_config) 1.5)); reflexivity.
  - apply (proj1 (colon_visible_failure (with_blink true infinity clock_config) 1.5));
      reflexivity.
  - apply (proj1 (proj2 (colon_visible_failure (with_blink true 0.5 clock_config) 1.5))).
    right. reflexivity.
  - apply (proj1 (proj2 (colon_visible_failure (with_blink false 0 clock_config) 1.5))).
    left. reflexivity.
Defined.

(** * The schedule of the shipped run *)

Lemma In_range_intro (n i : Z) : 0 <= i < n -> In i (range n).
Proof. intros H. apply (nth_error_In _ (Z.to_nat i)), nth_error_range, H. Qed.

Lemma shipped_run_on_schedule : frames_satisfy clock_config on_schedule = true.
Proof. vm_compute. reflexivity. Qed.

(** X4: in the shipped run the frame of index [i], for every [i] of
    0..1319, is rendered at a time [t = i / 30] at which the clock shows
    4:43 if [i < 660] and 4:44 otherwise, and at which the colon is visible
    exactly when [i mod 30 < 15]: the first half of every second, float
    rounding notwithstanding. *)
Theorem shipped_frame_schedule (i : Z) :
  0 <= i < 1320 ->
  exists t,
    PyFloat.int_truediv i (FPS clock_config) = Ok t /\
    frame_digits t = (if i <? 660 then [0; 4; 4; 3] else [0; 4; 4; 4]) /\
    colon_visible clock_config t = Ok (i mod 30 <? 15).
Proof.
  intros Hi. pose proof shipped_run_on_schedule as H.
  unfold frames_satisfy in H. rewrite forallb_forall in H.
  specialize (H i (In_range_intro _ i Hi)).
  destruct (PyFloat.int_truediv i (FPS clock_config)) as [t|]; [|discriminate].
  exists t. split; [reflexivity|]. unfold on_schedule in H.
  destruct (colon_visible clock_config t) as [visible|]; [|discriminate].
  apply andb_prop in H. destruct H as [Hv Hd]. apply eqb_prop in Hv. subst visible.
  split; [|reflexivity].
  destruct (i <? 660).
  - apply frame_digits_before, Hd.
  - apply frame_digits_after. destruct (t <? 22)%float; [discriminate | reflexivity].
Qed.

Lemma shipped_frame_schedule_witness :
  exists t,
    PyFloat.int_truediv 674 (FPS clock_config) = Ok t /\
    frame_digits t = [0; 4; 4; 4] /\
    colon_visible clock_config t = Ok true.
Proof. apply (shipped_frame_schedule 674). lia. Defined.

(** * Brightness at particular multipliers *)

Lemma mapM_map {A B : Type} (f : A -> result B) (g : A -> B) (P : A -> Prop) (l : list A) :
  (forall a, P a -> f a = Ok (g a)) -> Forall P l -> mapM f l = Ok (map g l).
Proof.
  intros Hf Hl. induction Hl as [|a l Ha Hl IH]; simpl; [reflexivity|].
  rewrite (Hf a Ha), IH. reflexivity.
Qed.

Lemma channel_in_channels (ch : Z) : 0 <= ch <= 255 -> In ch channels.
Proof. intros H. apply In_range_intro. lia. Qed.

Lemma channels_at_one_and_zero :
  forallb (fun ch =>
             match (x <- num_mul (Int ch) (Float 1) ;;
                    py_int (py_max (Int 0) (py_min (Int 255) x))),
                   (x <- num_mul (Int ch) (Float 0) ;;
                    py_int (py_max (Int 0) (py_min (Int 255) x))) with
             | Ok v1, Ok v0 => (v1 =? ch) && (v0 =? 0)
             | _, _ => false
             end) channels = true.
Proof. vm_compute. reflexivity. Qed.

Lemma channel_at_one_and_zero (ch : Z) :
  0 <= ch <= 255 ->
  (x <- num_mul (Int ch) (Float 1) ;; py_int (py_max (Int 0) (py_min (Int 255) x))) = Ok ch /\
  (x <- num_mul (Int ch) (Float 0) ;; py_int (py_max (Int 0) (py_min (Int 255) x))) = Ok 0.
Proof.
  intros H. pose proof channels_at_one_and_zero as Hc. rewrite forallb_forall in Hc.
  specialize (Hc ch (channel_in_channels ch H)).
  destruct (x <- num_mul (Int ch) (Float 1) ;; py_int (py_max (Int 0) (py_min (Int 255) x)))
    as [v1|]; [|discriminate].
  destruct (x <- num_mul (Int ch) (Float 0) ;; py_int (py_max (Int 0) (py_min (Int 255) x)))
    as [v0|]; [|discriminate].
  apply andb_prop in Hc. destruct Hc as [H1 H0].
  apply Z.eqb_eq in H1, H0. subst. split; reflexivity.
Qed.

Lemma leb_zero_ltb_two (k : float) : (k <=? 0)%float = true -> (k <? 2)%float = true.
Proof.
  rewrite leb_spec, ltb_spec.
  change (Prim2SF 0) with (S754_zero false).
  change (Prim2SF 2) with (S754_finite false 4503599627370496 (-51)).
  destruct (Prim2SF k) as [s|[]| |[] m e]; simpl; try discriminate; reflexivity.
Qed.

Lemma clamp_at_least_two (k : float) :
  (k <? 2)%float = false -> py_max (Float 0) (py_min (Float 2) (Float k)) = Float 2.
Proof. intros H. unfold py_min, py_max, num_lt. rewrite H. reflexivity. Qed.

Lemma clamp_at_most_zero (k : float) :
  (k <=? 0)%float = true -> py_max (Float 0) (py_min (Float 2) (Float k)) = Float 0.
Proof.
  intros H. unfold py_min, py_max, num_lt.
  rewrite (leb_zero_ltb_two k H), (ltb_leb_false k 0 H). reflexivity.
Qed.

(** X5: on a colour with channels in 0..255, [modulate_brightness] at 1.0
    returns the colour unchanged, and at any multiplier [k <= 0] returns
    black; any multiplier that is not below 2.0 (2.0 and more, an infinity,
    a NaN) acts as 2.0 does. *)
Theorem modulate_brightness_fixed_points (c : color) (k : float) :
  Forall (fun ch => 0 <= ch <= 255) c ->
  modulate_brightness c 1 = Ok c /\
  ((k <=? 0)%float = true -> modulate_brightness c k = Ok (map (fun _ => 0) c)) /\
  ((k <? 2)%float = false -> modulate_brightness c k = modulate_brightness c 2).
Proof.
  intros Hc. split; [|split].
  - unfold modulate_brightness.
    change (py_max (Float 0) (py_min (Float 2) (Float 1))) with (Float 1).
    rewrite (mapM_map _ (fun ch => ch) (fun ch => 0 <= ch <= 255)).
    + rewrite map_id. reflexivity.
    + intros ch H. apply channel_at_one_and_zero, H.
    + exact Hc.
  - intros Hk. unfold modulate_brightness. rewrite (clamp_at_most_zero k Hk).
    apply (mapM_map _ (fun _ => 0) (fun ch => 0 <= ch <= 255)); [|exact Hc].
    intros ch H. apply channel_at_one_and_zero, H.
  - intros Hk. unfold modulate_brightness. rewrite (clamp_at_least_two k Hk).
    reflexivity.
Qed.

Lemma modulate_brightness_fixed_points_witness :
  modulate_brightness [60; 70; 80] 1 = Ok [60; 70; 80] /\
  modulate_brightness [60; 70; 80] (-3) = Ok [0; 0; 0] /\
  modulate_brightness [60; 70; 80] nan = modulate_brightness [60; 70; 80] 2.
Proof.
  assert (H : Forall (fun ch => 0 <= ch <= 255) [60; 70; 80])
    by (repeat (apply Forall_cons; [lia|]); apply Forall_nil).
  split; [|split].
  - apply (proj1 (modulate_brightness_fixed_points [60; 70; 80] 1 H)).
  - apply (proj1 (proj2 (modulate_brightness_fixed_points [60; 70; 80] (-3) H))).
    reflexivity.
  - apply (proj2 (proj2 (modulate_brightness_fixed_points [60; 70; 80] nan H))).
    reflexivity.
Defined.

(** * Blending two colours *)

Lemma mapM_Ok_inv {A B : Type} (f : A -> result B) (l : list A) (out : list B) :
  mapM f l = Ok out ->
  List.length out = List.length l /\ forall a, In a l -> exists b, f a = Ok b.
Proof.
  revert out. induction l as [|a l IH]; simpl; intros out H.
  - injection H as <-. split; [reflexivity | intros a []].
  - destruct (f a) as [b|] eqn:Ea; [|discriminate]. cbn [bind] in H.
    destruct (mapM f l) as [bs|] eqn:El; [|discriminate]. cbn [bind] in H.
    injection H as <-. destruct (IH bs eq_refl) as [Hlen Hall].
    split; [simpl; congruence|]. intros x [<- | Hx]; [eexists; exact Ea | apply Hall, Hx].
Qed.

Lemma index_Ok_length {A : Type} (l : list A) (i : Z) (a : A) :
  index l i = Ok a -> 0 <= i < Z.of_nat (List.length l).
Proof.
  unfold index. destruct (i <? 0) eqn:E; [discriminate|]. apply Z.ltb_ge in E.
  destruct (nth_error l (Z.to_nat i)) eqn:En; [|discriminate]. intros _.
  assert (nth_error l (Z.to_nat i) <> None) as Hn by congruence.
  apply nth_error_Some in Hn. lia.
Qed.

Lemma lerp_channels_at_ends :
  forallb (fun a =>
             forallb (fun b =>
                        match lerp_channel a b 0, lerp_channel a b 1 with
                        | Ok v0, Ok v1 => (v0 =? a) && (v1 =? b)
                        | _, _ => false
                        end) channels) channels = true.
Proof. vm_compute. reflexivity. Qed.

Lemma lerp_channel_at_ends (a b : Z) :
  0 <= a <= 255 -> 0 <= b <= 255 ->
  lerp_channel a b 0 = Ok a /\ lerp_channel a b 1 = Ok b.
Proof.
  intros Ha Hb. pose proof lerp_channels_at_ends as H. rewrite forallb_forall in H.
  specialize (H a (channel_in_channels a Ha)). rewrite forallb_forall in H.
  specialize (H b (channel_in_channels b Hb)).
  destruct (lerp_channel a b 0) as [v0|]; [|discriminate].
  destruct (lerp_channel a b 1) as [v1|]; [|discriminate].
  apply andb_prop in H. destruct H as [H0 H1]. apply Z.eqb_eq in H0, H1. subst.
  split; reflexivity.
Qed.

Lemma lerp_color_three (a0 a1 a2 b0 b1 b2 : Z) (r1 r2 : list Z) (t : float) :
  lerp_color (a0 :: a1 :: a2 :: r1) (b0 :: b1 :: b2 :: r2) t =
  (v0 <- lerp_channel a0 b0 t ;; v1 <- lerp_channel a1 b1 t ;;
   v2 <- lerp_channel a2 b2 t ;; Ok [v0; v1; v2]).
Proof.
  unfold lerp_color, lerp_channel. change (range 3) with [0; 1; 2]. cbn [mapM].
  change (index (a0 :: a1 :: a2 :: r1) 0) with (Ok a0).
  change (index (a0 :: a1 :: a2 :: r1) 1) with (Ok a1).
  change (index (a0 :: a1 :: a2 :: r1) 2) with (Ok a2).
  change (index (b0 :: b1 :: b2 :: r2) 0) with (Ok b0).
  change (index (b0 :: b1 :: b2 :: r2) 1) with (Ok b1).
  change (index (b0 :: b1 :: b2 :: r2) 2) with (Ok b2).
  cbn [bind].
  destruct (PyFloat.of_int (b0 - a0)); [|reflexivity]. cbn [bind].
  destruct (PyFloat.of_int a0); [|reflexivity]. cbn [bind].
  destruct (PyFloat.trunc _); [|reflexivity]. cbn [bind].
  destruct (PyFloat.of_int (b1 - a1)); [|reflexivity]. cbn [bind].
  destruct (PyFloat.of_int a1); [|reflexivity]. cbn [bind].
  destruct (PyFloat.trunc _); [|reflexivity]. cbn [bind].
  destruct (PyFloat.of_int (b2 - a2)); [|reflexivity]. cbn [bind].
  destruct (PyFloat.of_int a2); [|reflexivity]. cbn [bind].
  destruct (PyFloat.trunc _); reflexivity.
Qed.

(** X6: [lerp_color] blends the first three channels only and returns
    three; with channels in 0..255 it returns the first colour at
    [t = 0.0] and the second at [t = 1.0], exactly; a colour of fewer than
    three channels makes it fail ([IndexError] at once when the first
    colour is empty). *)
Theorem lerp_color_endpoints (c1 c2 : color) (t : float) :
  (forall out, lerp_color c1 c2 t = Ok out ->
     List.length out = 3%nat /\ (3 <= List.length c1)%nat /\ (3 <= List.length c2)%nat) /\
  (c1 = [] -> lerp_color c1 c2 t = Raise IndexError) /\
  (forall a0 a1 a2 b0 b1 b2 r1 r2,
     c1 = a0 :: a1 :: a2 :: r1 -> c2 = b0 :: b1 :: b2 :: r2 ->
     Forall (fun ch => 0 <= ch <= 255) [a0; a1; a2; b0; b1; b2] ->
     lerp_color c1 c2 0 = Ok [a0; a1; a2] /\ lerp_color c1 c2 1 = Ok [b0; b1; b2]).
Proof.
  split; [|split].
  - intros out H. unfold lerp_color in H. apply mapM_Ok_inv in H. destruct H as [Hlen Hall].
    split; [exact Hlen|].
    destruct (Hall 2 ltac:(simpl; auto)) as [v Hv].
    destruct (index c1 2) as [a|] eqn:E1; [|discriminate]. cbn [bind] in Hv.
    destruct (index c2 2) as [b|] eqn:E2; [|discriminate].
    apply index_Ok_length in E1, E2. lia.
  - intros ->. reflexivity.
  - intros a0 a1 a2 b0 b1 b2 r1 r2 -> -> Hc. rewrite !lerp_color_three.
    repeat match goal with H : Forall _ (_ :: _) |- _ => inversion H; subst; clear H end.
    destruct (lerp_channel_at_ends a0 b0) as [-> ->]; try assumption.
    destruct (lerp_channel_at_ends a1 b1) as [-> ->]; try assumption.
    destruct (lerp_channel_at_ends a2 b2) as [-> ->]; try assumption.
    split; reflexivity.
Qed.

Lemma lerp_color_endpoints_witness :
  lerp_color [60; 70; 80] [40; 200; 255] 0 = Ok [60; 70; 80] /\
  lerp_color [60; 70; 80] [40; 200; 255] 1 = Ok [40; 200; 255] /\
  lerp_color [] [40; 200; 255] 0.5 = Raise IndexError.
Proof.
  split; [|split].
  - apply (proj2 (proj2 (lerp_color_endpoints [60; 70; 80] [40; 200; 255] 0))
             60 70 80 40 200 255 [] []); try reflexivity.
    repeat (apply Forall_cons; [lia|]); apply Forall_nil.
  - apply (proj2 (proj2 (lerp_color_endpoints [60; 70; 80] [40; 200; 255] 0))
             60 70 80 40 200 255 [] []); try reflexivity.
    repeat (apply Forall_cons; [lia|]); apply Forall_nil.
  - apply (proj1 (proj2 (lerp_color_endpoints [] [40; 200; 255] 0.5))). reflexivity.
Defined.

(** * The window of the code overlay *)

Lemma fold_left_draw_ops (ops : list DrawOp) : forall img,
  img_ops (fold_left draw ops img) = img_ops img ++ ops /\
  img_size (fold_left draw ops img) = img_size img /\
  img_fill (fold_left draw ops img) = img_fill img.
Proof.
  induction ops as [|op ops IH]; intros img; simpl.
  - rewrite app_nil_r. repeat split.
  - destruct (IH (draw img op)) as (H1 & H2 & H3). rewrite H1, H2, H3. simpl.
    rewrite <- app_assoc. repeat split.
Qed.

Lemma foldM_draws {A : Type} (f : Image -> A -> result Image) (g : A -> DrawOp)
    (l : list A) :
  (forall s a, In a l -> f s a = Ok (draw s (g a))) ->
  forall s, foldM f l s = Ok (fold_left draw (map g l) s).
Proof.
  induction l as [|a l IH]; intros Hf s; simpl; [reflexivity|].
  rewrite (Hf s a (or_introl eq_refl)). cbn [bind]. apply IH.
  intros s' a' Ha'. apply Hf. right. exact Ha'.
Qed.

Lemma nth_error_range2 (a b j : Z) :
  0 <= j < b - a -> nth_error (range2 a b) (Z.to_nat j) = Some (a + j).
Proof.
  intros Hj. unfold range2. rewrite nth_error_map, nth_error_range by exact Hj. reflexivity.
Qed.

Lemma range2_length (a b : Z) : List.length (range2 a b) = Z.to_nat (b - a).
Proof. unfold range2. rewrite length_map. apply range_length. Qed.

Lemma enumerate_length {A : Type} (l : list A) : List.length (enumerate l) = List.length l.
Proof.
  unfold enumerate. rewrite length_combine, range_length, Nat2Z.id. apply Nat.min_id.
Qed.

Lemma nth_error_combine {A B : Type} (l1 : list A) : forall (l2 : list B) j x y,
  nth_error l1 j = Some x -> nth_error l2 j = Some y ->
  nth_error (combine l1 l2) j = Some (x, y).
Proof.
  induction l1 as [|a l1 IH]; intros [|b l2] [|j] x y H1 H2; simpl in *; try discriminate.
  - injection H1 as <-. injection H2 as <-. reflexivity.
  - apply IH; assumption.
Qed.

Lemma nth_error_enumerate {A : Type} (l : list A) (j : nat) (a : A) :
  nth_error l j = Some a -> nth_error (enumerate l) j = Some (Z.of_nat j, a).
Proof.
  intros H. unfold enumerate.
  assert (Hj : (j < List.length l)%nat) by (apply nth_error_Some; congruence).
  apply nth_error_combine; [|exact H].
  rewrite <- (Nat2Z.id j) at 1. apply nth_error_range. lia.
Qed.

Lemma In_enumerate {A : Type} (l : list A) (i : Z) (a : A) :
  In (i, a) (enumerate l) -> 0 <= i /\ nth_error l (Z.to_nat i) = Some a.
Proof.
  intros H. apply In_nth_error in H. destruct H as [j Hj].
  assert (Hlt : (j < List.length l)%nat).
  { rewrite <- (enumerate_length l). apply nth_error_Some. congruence. }
  destruct (nth_error l j) as [a'|] eqn:Ea.
  - rewrite (nth_error_enumerate l j a' Ea) in Hj. injection Hj as <- <-.
    rewrite Nat2Z.id. split; [lia | exact Ea].
  - apply nth_error_None in Ea. lia.
Qed.

Lemma index_nth_error {A : Type} (l : list A) (i : Z) (a : A) :
  0 <= i -> nth_error l (Z.to_nat i) = Some a -> index l i = Ok a.
Proof.
  intros Hi H. unfold index.
  replace (i <? 0) with false by (symmetry; apply Z.ltb_ge; lia). rewrite H. reflexivity.
Qed.

(** The drawing call of the overlay for entry [(i, line_idx)] of its loop. *)
Lemma overlay_step (env : Env) (cfg : Config) (lines : list string) (fill : color)
    (img : Image) (i line_idx : Z) (line : string) :
  0 <= line_idx -> nth_error lines (Z.to_nat line_idx) = Some line ->
  (if line_idx <? Z.of_nat (List.length lines) then
     line <- index lines line_idx ;;
     let display_line :=
       if (120 <? String.length line)%nat then substring 0 120 line else line in
     let y := 100 + i * CODE_LINE_HEIGHT cfg in
     if text_draws env (overlay_font env cfg) display_line
     then Ok (draw img (Text (400, y) display_line fill (Some (overlay_font env cfg))))
     else Ok (draw img (Text (400, y) "[code]" fill None))
   else Ok img) = Ok (draw img (overlay_text env cfg fill i line)).
Proof.
  intros H0 Hn.
  assert (Hlt : (Z.to_nat line_idx < List.length lines)%nat)
    by (apply nth_error_Some; congruence).
  replace (line_idx <? Z.of_nat (List.length lines)) with true
    by (symmetry; apply Z.ltb_lt; lia).
  rewrite (index_nth_error lines line_idx line H0 Hn). cbn [bind].
  unfold overlay_text, display_line. cbv zeta.
  destruct (text_draws _ _ _); reflexivity.
Qed.

Lemma substring_0_length (m : nat) : forall s,
  String.length (substring 0 m s) = Nat.min m (String.length s).
Proof.
  induction m as [|m IH]; intros s; destruct s as [|c s]; simpl; try reflexivity.
  rewrite IH. reflexivity.
Qed.

Lemma substring_0_all (s : string) : substring 0 (String.length s) s = s.
Proof. induction s as [|c s IH]; simpl; [reflexivity | rewrite IH; reflexivity]. Qed.

Lemma display_line_short (line : string) :
  (String.length (display_line line) <= 120)%nat /\
  display_line line = substring 0 (Nat.min 120 (String.length line)) line.
Proof.
  unfold display_line. destruct (120 <? String.length line)%nat eqn:E.
  - apply Nat.ltb_lt in E. rewrite Nat.min_l by lia. split; [|reflexivity].
    rewrite substring_0_length. lia.
  - apply Nat.ltb_ge in E. rewrite Nat.min_r by lia. split; [lia|].
    symmetry. apply substring_0_all.
Qed.

Lemma draw_code_overlay_drawn (env : Env) (cfg : Config) (img img' : Image)
    (lines : list string) (t : float) :
  draw_code_overlay env cfg img lines t = Ok img' ->
  let len := Z.of_nat (List.length lines) in
  let shown := Z.min lines_per_screen len in
  img_size img' = img_size img /\ img_fill img' = img_fill img /\
  (CODE_OVERLAY_ENABLED cfg = false \/ lines = [] -> img' = img) /\
  (CODE_OVERLAY_ENABLED cfg = true -> lines <> [] ->
   exists first fill texts,
     start_line cfg lines t = Ok first /\
     0 <= first /\ first + shown <= len /\
     img' = fold_left draw texts img /\
     img_ops img' = img_ops img ++ texts /\
     Z.of_nat (List.length texts) = shown /\
     forall j, 0 <= j < shown ->
       exists line,
         nth_error lines (Z.to_nat (first + j)) = Some line /\
         nth_error texts (Z.to_nat j) = Some (overlay_text env cfg fill j line) /\
         (String.length (display_line line) <= 120)%nat).
Proof.
  intros H. cbv zeta. unfold draw_code_overlay in H.
  destruct (CODE_OVERLAY_ENABLED cfg) eqn:En; cbn [negb orb] in H.
  2:{ injection H as <-. repeat split; try discriminate. }
  destruct (List.length lines =? 0)%nat eqn:E0.
  { apply Nat.eqb_eq in E0. injection H as <-. repeat split; try discriminate.
    intros _ Hn. destruct lines; [contradiction Hn; reflexivity | discriminate]. }
  apply Nat.eqb_neq in E0.
  destruct (start_line cfg lines t) as [first|] eqn:Es; [|discriminate]. cbn [bind] in H.
  destruct (mapM _ (CODE_COLOR cfg)) as [fill|] eqn:Ef; [|discriminate]. cbn [bind] in H.
  pose proof (start_line_range cfg lines t first Es) as Hfirst.
  unfold total_scrollable_lines, lines_per_screen in Hfirst.
  set (shown := Z.min lines_per_screen (Z.of_nat (List.length lines))).
  unfold lines_per_screen in *.
  assert (Hend : Z.min (first + 25) (Z.of_nat (List.length lines)) = first + shown)
    by (subst shown; lia).
  rewrite Hend in H.
  set (g := fun il : Z * Z =>
              overlay_text env cfg fill (fst il)
                           (nth (Z.to_nat (snd il)) lines EmptyString)).
  rewrite (foldM_draws _ g) in H.
  2:{ intros s [i line_idx] Hin. apply In_enumerate in Hin. destruct Hin as [Hi Hn].
      assert (Hr : first <= line_idx < first + shown).
      { apply In_range2. apply (nth_error_In _ _ Hn). }
      assert (Hl : (Z.to_nat line_idx < List.length lines)%nat) by (subst shown; lia).
      apply nth_error_Some in Hl.
      destruct (nth_error lines (Z.to_nat line_idx)) as [line|] eqn:Eline; [|congruence].
      transitivity (Ok (draw s (overlay_text env cfg fill i line)));
        [exact (overlay_step env cfg lines fill s i line_idx line ltac:(lia) Eline)|].
      unfold g. cbn [fst snd]. rewrite (nth_error_nth _ _ _ Eline). reflexivity. }
  injection H as <-.
  destruct (fold_left_draw_ops (map g (enumerate (range2 first (first + shown)))) img)
    as (Hops & Hsize & Hfill).
  split; [exact Hsize|]. split; [exact Hfill|]. split.
  { intros [Hd | Hd]; [discriminate | subst; contradiction E0; reflexivity]. }
  intros _ _. exists first, fill, (map g (enumerate (range2 first (first + shown)))).
  split; [reflexivity|]. split; [lia|]. split; [subst shown; lia|].
  split; [reflexivity|]. split; [exact Hops|]. split.
  { rewrite length_map, enumerate_length, range2_length. subst shown. lia. }
  intros j Hj.
  assert (Hl : (Z.to_nat (first + j) < List.length lines)%nat) by (subst shown; lia).
  apply nth_error_Some in Hl.
  destruct (nth_error lines (Z.to_nat (first + j))) as [line|] eqn:Eline; [|congruence].
  exists line. split; [reflexivity|]. split; [|apply display_line_short].
  rewrite nth_error_map.
  rewrite (nth_error_enumerate _ _ (first + j)).
  2:{ apply nth_error_range2. lia. }
  cbn [option_map]. unfold g. cbn [fst snd].
  rewrite (nth_error_nth _ _ _ Eline), Z2Nat.id by lia. reflexivity.
Qed.

Lemma draw_code_overlay_size (env : Env) (cfg : Config) (img img' : Image)
    (lines : list string) (t : float) :
  draw_code_overlay env cfg img lines t = Ok img' ->
  img_size img' = img_size img /\ img_fill img' = img_fill img.
Proof.
  intros H. destruct (draw_code_overlay_drawn env cfg img img' lines t H) as (Hs & Hf & _).
  split; assumption.
Qed.



(** * The layers of a frame *)

Lemma bind_Ok_inv {A B : Type} (r : result A) (k : A -> result B) (b : B) :
  bind r k = Ok b -> exists a, r = Ok a /\ k a = Ok b.
Proof. destruct r as [a|e]; simpl; [eauto | discriminate]. Qed.

Lemma foldM_paints {A : Type} (f : Image -> A -> result Image)
    (R : A -> list DrawOp -> Prop) (l : list A) :
  (forall s a s', f s a = Ok s' -> exists ops, R a ops /\ s' = fold_left draw ops s) ->
  forall s s', foldM f l s = Ok s' ->
    exists opss, Forall2 R l opss /\ s' = fold_left draw (List.concat opss) s.
Proof.
  intros Hf. induction l as [|a l IH]; intros s s' H; simpl in H.
  - injection H as <-. exists []. split; [constructor | reflexivity].
  - apply bind_Ok_inv in H. destruct H as (s1 & Ha & Hl).
    destruct (Hf s a s1 Ha) as (ops & Hops & ->).
    destruct (IH _ _ Hl) as (opss & Hall & ->).
    exists (ops :: opss). split; [constructor; assumption|].
    simpl. rewrite fold_left_app. reflexivity.
Qed.

Lemma draw_bit_paints (cfg : Config) (positions : list (list (Z * Z))) (k : float)
    (col : Z) (s : Image) (rb : Z * Z) (s' : Image) :
  draw_bit cfg positions k col s rb = Ok s' ->
  exists ops, led_drawn cfg positions k col rb ops /\ s' = fold_left draw ops s.
Proof.
  unfold draw_bit, led_drawn, grid_at. destruct rb as [row bit]. cbn [fst snd]. intros H.
  apply bind_Ok_inv in H. destruct H as (column & Hc & H).
  apply bind_Ok_inv in H. destruct H as ([cx cy] & Hxy & H).
  apply bind_Ok_inv in H. destruct H as (c & Hm & H). injection H as <-.
  exists [led_circle (cx, cy) (LED_RADIUS cfg) c]. split; [|reflexivity].
  exists (cx, cy), c. rewrite Hc. cbn [bind]. repeat split; assumption.
Qed.

Lemma draw_digit_paints (cfg : Config) (positions : list (list (Z * Z))) (k : float)
    (s : Image) (cd : Z * Z) (s' : Image) :
  draw_digit cfg positions k s cd = Ok s' ->
  exists ops, digit_drawn cfg positions k cd ops /\ s' = fold_left draw ops s.
Proof.
  unfold draw_digit, digit_drawn. destruct cd as [col d]. cbn [fst snd]. intros H.
  apply bind_Ok_inv in H. destruct H as (bits & Hb & H).
  apply (foldM_paints _ (led_drawn cfg positions k col)) in H;
    [|intros; apply draw_bit_paints; assumption].
  destruct H as (opss & Hall & ->).
  exists (List.concat opss). split; [|reflexivity]. exists bits, opss. repeat split; assumption.
Qed.

Lemma draw_colon_paints (cfg : Config) (positions : list (list (Z * Z))) (s s' : Image) :
  draw_colon cfg positions s = Ok s' ->
  exists ops, colon_dots cfg positions ops /\ s' = fold_left draw ops s.
Proof.
  unfold draw_colon, colon_dots, grid_at. intros H.
  apply bind_Ok_inv in H. destruct H as (c1 & H1 & H).
  apply bind_Ok_inv in H. destruct H as (p1 & Hp1 & H).
  apply bind_Ok_inv in H. destruct H as (c2 & H2 & H).
  apply bind_Ok_inv in H. destruct H as (p2 & Hp2 & H). injection H as <-.
  exists [led_circle ((fst p1 + fst p2) / 2, snd (GRID_CENTER cfg) - COLON_SPACING cfg / 2)
                     (COLON_RADIUS cfg) (COLON_COLOR cfg);
          led_circle ((fst p1 + fst p2) / 2, snd (GRID_CENTER cfg) + COLON_SPACING cfg / 2)
                     (COLON_RADIUS cfg) (COLON_COLOR cfg)].
  split; [|reflexivity].
  exists p1, p2. rewrite H1, H2. cbn [bind]. repeat split; assumption.
Qed.

Lemma Forall2_four {A B : Type} (R : A -> B -> Prop) (a0 a1 a2 a3 : A) (l : list B) :
  Forall2 R [a0; a1; a2; a3] l ->
  exists b0 b1 b2 b3, l = [b0; b1; b2; b3] /\ R a0 b0 /\ R a1 b1 /\ R a2 b2 /\ R a3 b3.
Proof.
  intros H. inversion H as [|? b0 ? l0 H0 T0]; subst.
  inversion T0 as [|? b1 ? l1 H1 T1]; subst.
  inversion T1 as [|? b2 ? l2 H2 T2]; subst.
  inversion T2 as [|? b3 ? l3 H3 T3]; subst.
  inversion T3; subst. exists b0, b1, b2, b3. repeat split; assumption.
Qed.

Lemma digit_drawn_four (cfg : Config) (positions : list (list (Z * Z))) (k : float)
    (col d : Z) (ops : list DrawOp) :
  0 <= d <= 9 ->
  digit_drawn cfg positions k (col, d) ops ->
  List.length ops = 4%nat /\
  forall row, 0 <= row < 4 ->
    exists op, nth_error ops (Z.to_nat row) = Some op /\
               led_drawn cfg positions k col (row, bit_at d row) [op].
Proof.
  intros Hd (bits & opss & Hb & Hall & ->). cbn [fst snd] in *.
  rewrite (bcd_bits_in_range d Hd) in Hb. injection Hb as <-.
  change (enumerate (map (fun shift => Z.land (Z.shiftr d shift) 1) [3; 2; 1; 0]))
    with [(0, bit_at d 0); (1, bit_at d 1); (2, bit_at d 2); (3, bit_at d 3)] in Hall.
  apply Forall2_four in Hall.
  destruct Hall as (o0 & o1 & o2 & o3 & -> & H0 & H1 & H2 & H3).
  assert (Hone : forall rb o, led_drawn cfg positions k col rb o ->
                              exists op, o = [op] /\ led_drawn cfg positions k col rb [op]).
  { intros rb o (xy & c & Hg & Hm & ->). eexists. split; [reflexivity|].
    exists xy, c. repeat split; assumption. }
  destruct (Hone _ _ H0) as (p0 & -> & G0). destruct (Hone _ _ H1) as (p1 & -> & G1).
  destruct (Hone _ _ H2) as (p2 & -> & G2). destruct (Hone _ _ H3) as (p3 & -> & G3).
  split; [reflexivity|]. intros row Hr.
  assert (Hc : row = 0 \/ row = 1 \/ row = 2 \/ row = 3) by lia.
  destruct Hc as [->|[->|[->| ->]]]; eexists; (split; [reflexivity | assumption]).
Qed.

Lemma render_frame_painted (env : Env) (cfg : Config) (t : float)
    (positions : list (list (Z * Z))) (lines : list string) (frame : Image) :
  render_frame env cfg t positions lines = Ok frame ->
  img_size frame = (WIDTH cfg, HEIGHT cfg) /\ img_fill frame = BACKGROUND cfg /\
  exists overlay k visible leds colon,
    draw_code_overlay env cfg (Image_new (WIDTH cfg, HEIGHT cfg) (BACKGROUND cfg)) lines t
      = Ok overlay /\
    pulse_factor env cfg t = Ok k /\
    colon_visible cfg t = Ok visible /\
    frame = fold_left draw (leds ++ colon) overlay /\
    img_ops frame = img_ops overlay ++ leds ++ colon /\
    List.length leds = 16%nat /\
    (forall col row, 0 <= col < 4 -> 0 <= row < 4 ->
       exists op,
         nth_error leds (Z.to_nat (4 * col + row)) = Some op /\
         led_drawn cfg positions k col
                   (row, bit_at (nth (Z.to_nat col) (frame_digits t) 0) row) [op]) /\
    (if visible then colon_dots cfg positions colon else colon = []).
Proof.
  unfold render_frame. intros H.
  apply bind_Ok_inv in H. destruct H as (overlay & Ho & H).
  apply bind_Ok_inv in H. destruct H as (k & Hk & H).
  apply bind_Ok_inv in H. destruct H as (lit & Hl & H).
  apply bind_Ok_inv in H. destruct H as (visible & Hv & H).
  apply (foldM_paints _ (digit_drawn cfg positions k)) in Hl;
    [|intros; apply draw_digit_paints; assumption].
  destruct Hl as (opss & Hall & ->).
  assert (Hcolon : exists colon,
             (if visible then colon_dots cfg positions colon else colon = []) /\
             frame = fold_left draw colon (fold_left draw (List.concat opss) overlay)).
  { destruct visible.
    - apply draw_colon_paints in H. exact H.
    - injection H as <-. exists []. split; reflexivity. }
  destruct Hcolon as (colon & Hc & ->). rewrite <- fold_left_app.
  destruct (fold_left_draw_ops (List.concat opss ++ colon) overlay) as (Hops & Hsize & Hfill).
  assert (Hbase : img_size overlay = (WIDTH cfg, HEIGHT cfg) /\
                  img_fill overlay = BACKGROUND cfg).
  { destruct (draw_code_overlay_size env cfg _ overlay lines t Ho) as [Hs Hf].
    rewrite Hs, Hf. split; reflexivity. }
  rewrite Hsize, Hfill. split; [apply Hbase|]. split; [apply Hbase|].
  exists overlay, k, visible, (List.concat opss), colon.
  split; [exact Ho|]. split; [exact Hk|]. split; [exact Hv|]. split; [reflexivity|].
  split; [exact Hops|].
  assert (Hd : exists d0 d1 d2 d3, frame_digits t = [d0; d1; d2; d3] /\
                 0 <= d0 <= 9 /\ 0 <= d1 <= 9 /\ 0 <= d2 <= 9 /\ 0 <= d3 <= 9).
  { destruct (frame_digits_cases t) as [-> | ->]; do 4 eexists;
      (split; [reflexivity | lia]). }
  destruct Hd as (d0 & d1 & d2 & d3 & Ed & R0 & R1 & R2 & R3). rewrite Ed in *.
  change (enumerate [d0; d1; d2; d3]) with [(0, d0); (1, d1); (2, d2); (3, d3)] in Hall.
  apply Forall2_four in Hall.
  destruct Hall as (o0 & o1 & o2 & o3 & -> & H0 & H1 & H2 & H3).
  destruct (digit_drawn_four _ _ _ _ _ _ R0 H0) as [L0 G0].
  destruct (digit_drawn_four _ _ _ _ _ _ R1 H1) as [L1 G1].
  destruct (digit_drawn_four _ _ _ _ _ _ R2 H2) as [L2 G2].
  destruct (digit_drawn_four _ _ _ _ _ _ R3 H3) as [L3 G3].
  cbn [List.concat]. rewrite app_nil_r.
  split; [rewrite !length_app; lia|]. split; [|exact Hc].
  intros col row Hcol Hrow.
  assert (Hcc : col = 0 \/ col = 1 \/ col = 2 \/ col = 3) by lia.
  destruct Hcc as [->|[->|[->| ->]]].
  - destruct (G0 row Hrow) as (op & Hn & Hop). exists op. split; [|exact Hop].
    replace (Z.to_nat (4 * 0 + row)) with (Z.to_nat row) by lia.
    rewrite nth_error_app1 by (rewrite L0; lia). exact Hn.
  - destruct (G1 row Hrow) as (op & Hn & Hop). exists op. split; [|exact Hop].
    replace (Z.to_nat (4 * 1 + row)) with (List.length o0 + Z.to_nat row)%nat by lia.
    rewrite nth_error_app2, Nat.add_comm, Nat.add_sub by lia.
    rewrite nth_error_app1 by (rewrite L1; lia). exact Hn.
  - destruct (G2 row Hrow) as (op & Hn & Hop). exists op. split; [|exact Hop].
    replace (Z.to_nat (4 * 2 + row))
      with (List.length o0 + (List.length o1 + Z.to_nat row))%nat by lia.
    rewrite nth_error_app2, Nat.add_comm, Nat.add_sub by lia.
    rewrite nth_error_app2, Nat.add_comm, Nat.add_sub by lia.
    rewrite nth_error_app1 by (rewrite L2; lia). exact Hn.
  - destruct (G3 row Hrow) as (op & Hn & Hop). exists op. split; [|exact Hop].
    replace (Z.to_nat (4 * 3 + row))
      with (List.length o0 + (List.length o1 + (List.length o2 + Z.to_nat row)))%nat by lia.
    rewrite nth_error_app2, Nat.add_comm, Nat.add_sub by lia.
    rewrite nth_error_app2, Nat.add_comm, Nat.add_sub by lia.
    rewrite nth_error_app2, Nat.add_comm, Nat.add_sub by lia.
    exact Hn.
Qed.

(** X9: a frame that [render_frame] returns has the configured size and
    background and three layers in this order: the code overlay at the
    bottom, then exactly 16 LED circles, then the two dots of the colon
    when the colon is visible and nothing otherwise. The circle of column
    [col] and row [row] is the one at index [4 * col + row]; it sits on the
    grid position with the LED radius, in the on-colour scaled by the pulse
    factor when the bit of the column's digit is set, else in the off-colour
    scaled by 1.0, the pulse left out. *)
Theorem render_frame_layers (env : Env) (cfg : Config) (t : float)
    (positions : list (list (Z * Z))) (lines : list string) (frame : Image) :
  render_frame env cfg t positions lines = Ok frame ->
  img_size frame = (WIDTH cfg, HEIGHT cfg) /\ img_fill frame = BACKGROUND cfg /\
  exists overlay k visible leds colon,
    draw_code_overlay env cfg (Image_new (WIDTH cfg, HEIGHT cfg) (BACKGROUND cfg)) lines t
      = Ok overlay /\
    pulse_factor env cfg t = Ok k /\
    colon_visible cfg t = Ok visible /\
    frame = fold_left draw (leds ++ colon) overlay /\
    img_ops frame = img_ops overlay ++ leds ++ colon /\
    List.length leds = 16%nat /\
    (forall col row, 0 <= col < 4 -> 0 <= row < 4 ->
       exists op,
         nth_error leds (Z.to_nat (4 * col + row)) = Some op /\
         led_drawn cfg positions k col
                   (row, bit_at (nth (Z.to_nat col) (frame_digits t) 0) row) [op]) /\
    (if visible then colon_dots cfg positions colon else colon = []).
Proof. apply render_frame_painted. Qed.

Lemma render_frame_layers_witness :
  exists frame,
    render_frame sample_env clock_config 21.5 (compute_grid_positions clock_config)
                 sample_lines = Ok frame /\
    img_size frame = (1920, 1080) /\ img_fill frame = [20; 24; 32].
Proof.
  destruct (render_frame sample_env clock_config 21.5 (compute_grid_positions clock_config)
              sample_lines) as [frame|e] eqn:E; [|vm_compute in E; discriminate].
  exists frame. split; [reflexivity|].
  pose proof (render_frame_layers sample_env clock_config 21.5 _ sample_lines frame E)
    as (Hs & Hf & _).
  split; assumption.
Defined.

(** * Grids smaller than the drawing loops *)

Lemma range_pos (n : Z) : 0 < n -> exists rest, range n = 0 :: rest.
Proof.
  intros H. unfold range. destruct (Z.to_nat n) as [|k] eqn:E; [lia|].
  simpl. eexists. reflexivity.
Qed.

Lemma render_frame_full_grid (env : Env) (cfg : Config) (t : float) (lines : list string)
    (frame : Image) :
  render_frame env cfg t (compute_grid_positions cfg) lines = Ok frame ->
  4 <= GRID_COLS cfg /\ 4 <= GRID_ROWS cfg.
Proof.
  intros H. apply render_frame_painted in H.
  destruct H as (_ & _ & overlay & k & visible & leds & colon & _ & _ & _ & _ & _ & _ & Hleds & _).
  destruct (Hleds 3 3 ltac:(lia) ltac:(lia)) as (op & _ & xy & c & Hxy & _).
  cbn [fst] in Hxy. rewrite grid_at_compute in Hxy.
  destruct (3 <? GRID_COLS cfg) eqn:Ec; [|rewrite andb_false_r in Hxy; discriminate].
  destruct (3 <? GRID_ROWS cfg) eqn:Er; [|rewrite andb_false_r in Hxy; discriminate].
  apply Z.ltb_lt in Ec, Er. lia.
Qed.

Lemma main_mp4_first_frame_fails (env : Env) (cfg : Config) (lines : list string) :
  0 < DURATION_SEC cfg * FPS cfg ->
  (forall t frame, render_frame env cfg t (compute_grid_positions cfg) lines <> Ok frame) ->
  exists e, main_mp4 env cfg lines = (Raise e, {| appended := []; closed := true |}).
Proof.
  intros Hn Hfail. unfold main_mp4.
  destruct (range_pos _ Hn) as (rest & ->). cbn [write_frames].
  destruct (frame_at env cfg (compute_grid_positions cfg) lines 0) as [frame|e] eqn:E.
  - exfalso. unfold frame_at in E. apply bind_Ok_inv in E.
    destruct E as (t & _ & E). exact (Hfail t frame E).
  - exists e. reflexivity.
Qed.

(** X10: the loops of [render_frame] draw four digits of four bits whatever
    [GRID_COLS] and [GRID_ROWS] say.  On the grid that
    [compute_grid_positions] builds, a frame is returned only if the grid
    has at least four columns and four rows; with fewer, [render_frame]
    raises at every time, for every text and outside world, and a run of at
    least one frame ends on an exception with nothing appended and the
    writer closed. *)
Theorem render_frame_needs_full_grid (env : Env) (cfg : Config) (lines : list string) :
  GRID_COLS cfg < 4 \/ GRID_ROWS cfg < 4 ->
  (forall t, exists e, render_frame env cfg t (compute_grid_positions cfg) lines = Raise e) /\
  (0 < DURATION_SEC cfg * FPS cfg ->
   exists e, main_mp4 env cfg lines = (Raise e, {| appended := []; closed := true |})).
Proof.
  intros Hsmall.
  assert (Hfail : forall t frame,
             render_frame env cfg t (compute_grid_positions cfg) lines <> Ok frame).
  { intros t frame E. apply render_frame_full_grid in E. lia. }
  split.
  - intros t.
    destruct (render_frame env cfg t (compute_grid_positions cfg) lines) as [frame|e] eqn:E.
    + exfalso. exact (Hfail t frame E).
    + exists e. reflexivity.
  - intros Hn. apply main_mp4_first_frame_fails; assumption.
Qed.

Lemma render_frame_needs_full_grid_witness :
  render_frame sample_env (with_grid 3 4 clock_config) 21.5
               (compute_grid_positions (with_grid 3 4 clock_config)) sample_lines
    = Raise IndexError /\
  main_mp4 sample_env (with_grid 4 2 clock_config) sample_lines
    = (Raise IndexError, {| appended := []; closed := true |}).
Proof.
  destruct (render_frame_needs_full_grid sample_env (with_grid 3 4 clock_config) sample_lines)
    as [H1 _]; [left; simpl; lia|].
  destruct (render_frame_needs_full_grid sample_env (with_grid 4 2 clock_config) sample_lines)
    as [_ H2]; [right; simpl; lia|].
  destruct (H1 21.5%float) as (e1 & E1).
  destruct H2 as (e2 & E2); [simpl; lia|].
  split.
  - rewrite E1. f_equal.
    assert (E : render_frame sample_env (with_grid 3 4 clock_config) 21.5
                  (compute_grid_positions (with_grid 3 4 clock_config)) sample_lines
                = Raise IndexError) by (vm_compute; reflexivity).
    rewrite E in E1. injection E1 as <-. reflexivity.
  - rewrite E2. f_equal. f_equal.
    assert (E : fst (main_mp4 sample_env (with_grid 4 2 clock_config) sample_lines)
                = Raise IndexError) by (vm_compute; reflexivity).
    rewrite E2 in E. simpl in E. injection E as ->. reflexivity.
Defined.

(** * Where a division by zero can come from *)

Ltac no_zero_division_cases :=
  unfold no_zero_division, bind;
  repeat match goal with
         | |- context [match ?x with _ => _ end] => destruct x
         end;
  discriminate.

Lemma no_zero_division_bind {A B : Type} (r : result A) (k : A -> result B) :
  no_zero_division r -> (forall a, no_zero_division (k a)) -> no_zero_division (bind r k).
Proof.
  unfold no_zero_division. intros Hr Hk. destruct r as [a|e]; simpl; [apply Hk|].
  intros H. apply Hr. injection H as ->. reflexivity.
Qed.

Lemma no_zero_division_Ok {A : Type} (a : A) : no_zero_division (Ok a).
Proof. unfold no_zero_division. discriminate. Qed.

Lemma no_zero_division_mapM {A B : Type} (f : A -> result B) (l : list A) :
  (forall a, no_zero_division (f a)) -> no_zero_division (mapM f l).
Proof.
  intros Hf. induction l as [|a l IH]; simpl; [apply no_zero_division_Ok|].
  apply no_zero_division_bind; [apply Hf|]. intros b.
  apply no_zero_division_bind; [exact IH|]. intros bs. apply no_zero_division_Ok.
Qed.

Lemma no_zero_division_foldM {A S : Type} (f : S -> A -> result S) (l : list A) :
  (forall s a, no_zero_division (f s a)) -> forall s, no_zero_division (foldM f l s).
Proof.
  intros Hf. induction l as [|a l IH]; intros s; simpl; [apply no_zero_division_Ok|].
  apply no_zero_division_bind; [apply Hf | exact IH].
Qed.

Lemma no_zero_division_of_int (z : Z) : no_zero_division (PyFloat.of_int z).
Proof. unfold PyFloat.of_int. no_zero_division_cases. Qed.

Lemma no_zero_division_trunc (x : float) : no_zero_division (PyFloat.trunc x).
Proof. unfold PyFloat.trunc, PyFloat.SFtrunc. no_zero_division_cases. Qed.

Lemma no_zero_division_int_truediv (a b : Z) :
  b <> 0 -> no_zero_division (PyFloat.int_truediv a b).
Proof.
  intros Hb. unfold PyFloat.int_truediv.
  destruct (b =? 0) eqn:E; [apply Z.eqb_eq in E; contradiction|].
  destruct (_ && _).
  - apply no_zero_division_bind; [apply no_zero_division_of_int|]. intros da.
    apply no_zero_division_bind; [apply no_zero_division_of_int|]. intros db.
    apply no_zero_division_Ok.
  - unfold no_zero_division. destruct (PyFloat.SFint_truediv a b); discriminate.
Qed.

Lemma no_zero_division_rem (x y : float) :
  is_zero y = false -> no_zero_division (PyFloat.rem x y).
Proof.
  intros H. unfold PyFloat.rem, no_zero_division.
  destruct (is_zero y); [discriminate H|].
  destruct (is_zero _); [discriminate|].
  destruct (negb _); discriminate.
Qed.

Lemma no_zero_division_index {A : Type} (l : list A) (i : Z) : no_zero_division (index l i).
Proof. unfold index. no_zero_division_cases. Qed.

Lemma no_zero_division_bcd_bits (d : Z) : no_zero_division (bcd_bits d).
Proof. unfold bcd_bits. no_zero_division_cases. Qed.

Lemma no_zero_division_pulse_factor (env : Env) (cfg : Config) (t : float) :
  no_zero_division (pulse_factor env cfg t).
Proof.
  unfold pulse_factor. destruct (negb _); [apply no_zero_division_Ok|].
  apply no_zero_division_bind; [|intros s; apply no_zero_division_Ok].
  unfold math_sin. no_zero_division_cases.
Qed.

Lemma no_zero_division_modulate_brightness (c : color) (k : float) :
  no_zero_division (modulate_brightness c k).
Proof.
  unfold modulate_brightness. apply no_zero_division_mapM. intros ch.
  apply no_zero_division_bind.
  - unfold num_mul. destruct (py_max _ _); [apply no_zero_division_Ok|].
    apply no_zero_division_bind; [apply no_zero_division_of_int|]. intros x.
    apply no_zero_division_Ok.
  - intros x. unfold py_int. destruct (py_max _ _); [apply no_zero_division_Ok|].
    apply no_zero_division_trunc.
Qed.

Lemma no_zero_division_colon_visible (cfg : Config) (t : float) :
  COLON_ENABLED cfg = false \/
  is_zero (COLON_BLINK_FREQ cfg) || is_zero (1 / COLON_BLINK_FREQ cfg)%float = false ->
  no_zero_division (colon_visible cfg t).
Proof.
  intros H. rewrite colon_visible_cases.
  destruct (COLON_ENABLED cfg); cbn [negb]; [|apply no_zero_division_Ok].
  destruct H as [H|H]; [discriminate|]. rewrite H.
  apply orb_false_iff in H. destruct H as [_ H].
  apply no_zero_division_bind; [apply no_zero_division_rem, H|].
  intros r. apply no_zero_division_Ok.
Qed.

Lemma no_zero_division_draw_code_overlay (env : Env) (cfg : Config) (img : Image)
    (lines : list string) (t : float) :
  CODE_OVERLAY_ENABLED cfg = false \/ lines = [] \/ DURATION_SEC cfg <> 0 ->
  no_zero_division (draw_code_overlay env cfg img lines t).
Proof.
  intros H. unfold draw_code_overlay.
  destruct (negb (CODE_OVERLAY_ENABLED cfg) || (List.length lines =? 0)%nat) eqn:E;
    [apply no_zero_division_Ok|].
  apply orb_false_iff in E. destruct E as [E1 E2].
  destruct H as [H | [H | H]].
  { rewrite H in E1. discriminate. }
  { rewrite H in E2. discriminate. }
  apply no_zero_division_bind.
  { unfold start_line.
    apply no_zero_division_bind; [apply no_zero_division_int_truediv, H|]. intros s.
    apply no_zero_division_bind; [apply no_zero_division_trunc|]. intros n.
    apply no_zero_division_Ok. }
  intros first. apply no_zero_division_bind.
  { apply no_zero_division_mapM. intros c.
    apply no_zero_division_bind; [apply no_zero_division_of_int|]. intros c'.
    apply no_zero_division_trunc. }
  intros fill. apply no_zero_division_foldM. intros s [i line_idx].
  destruct (line_idx <? _); [|apply no_zero_division_Ok].
  apply no_zero_division_bind; [apply no_zero_division_index|]. intros line.
  destruct (text_draws _ _ _); apply no_zero_division_Ok.
Qed.

Lemma no_zero_division_draw_digit (cfg : Config) (positions : list (list (Z * Z)))
    (k : float) (img : Image) (cd : Z * Z) :
  no_zero_division (draw_digit cfg positions k img cd).
Proof.
  unfold draw_digit. destruct cd as [col_idx d].
  apply no_zero_division_bind; [apply no_zero_division_bcd_bits|]. intros bits.
  apply no_zero_division_foldM. intros s [row_idx bit]. unfold draw_bit.
  apply no_zero_division_bind; [apply no_zero_division_index|]. intros column.
  apply no_zero_division_bind; [apply no_zero_division_index|]. intros [cx cy].
  apply no_zero_division_bind; [apply no_zero_division_modulate_brightness|]. intros c.
  apply no_zero_division_Ok.
Qed.

Lemma no_zero_division_render_frame (env : Env) (cfg : Config) (t : float)
    (positions : list (list (Z * Z))) (lines : list string) :
  CODE_OVERLAY_ENABLED cfg = false \/ lines = [] \/ DURATION_SEC cfg <> 0 ->
  COLON_ENABLED cfg = false \/
  is_zero (COLON_BLINK_FREQ cfg) || is_zero (1 / COLON_BLINK_FREQ cfg)%float = false ->
  no_zero_division (render_frame env cfg t positions lines).
Proof.
  intros Ho Hc. unfold render_frame.
  apply no_zero_division_bind; [apply no_zero_division_draw_code_overlay, Ho|]. intros img.
  apply no_zero_division_bind; [apply no_zero_division_pulse_factor|]. intros k.
  apply no_zero_division_bind.
  { apply no_zero_division_foldM. intros s cd. apply no_zero_division_draw_digit. }
  intros img'.
  apply no_zero_division_bind; [apply no_zero_division_colon_visible, Hc|]. intros visible.
  destruct visible; [|apply no_zero_division_Ok].
  unfold draw_colon.
  repeat (apply no_zero_division_bind; [apply no_zero_division_index|]; intros ?).
  apply no_zero_division_Ok.
Qed.

Lemma render_frame_zero_division (env : Env) (cfg : Config) (t : float)
    (positions : list (list (Z * Z))) (lines : list string) :
  render_frame env cfg t positions lines = Raise ZeroDivisionError ->
  (CODE_OVERLAY_ENABLED cfg = true /\ lines <> [] /\ DURATION_SEC cfg = 0) \/
  (COLON_ENABLED cfg = true /\
   is_zero (COLON_BLINK_FREQ cfg) || is_zero (1 / COLON_BLINK_FREQ cfg)%float = true).
Proof.
  intros H.
  destruct (COLON_ENABLED cfg) eqn:Ec;
    [destruct (is_zero (COLON_BLINK_FREQ cfg) || is_zero (1 / COLON_BLINK_FREQ cfg)%float)
       eqn:Ed; [right; split; reflexivity|]|];
    (left;
     destruct (CODE_OVERLAY_ENABLED cfg) eqn:Eo;
     [destruct lines as [|l lines];
      [|destruct (Z.eq_dec (DURATION_SEC cfg) 0) as [Hd|Hd];
        [split; [reflexivity|]; split; [discriminate | exact Hd]|]]|];
     exfalso; revert H; apply no_zero_division_render_frame; rewrite ?Ec, ?Eo; auto).
Qed.

Lemma write_frames_raises (env : Env) (cfg : Config) (positions : list (list (Z * Z)))
    (lines : list string) (e : exn) (indices : list Z) :
  forall w, fst (write_frames env cfg positions lines indices w) = Raise e ->
    exists i, In i indices /\ frame_at env cfg positions lines i = Raise e.
Proof.
  induction indices as [|i rest IH]; intros w; simpl; [discriminate|].
  destruct (frame_at env cfg positions lines i) as [frame|e'] eqn:Ei.
  - intros H. destruct (IH _ H) as (j & Hj & Ej). exists j. split; [right|]; assumption.
  - simpl. intros H. injection H as ->. exists i. split; [left; reflexivity | exact Ei].
Qed.

(** X11: a division by zero has two possible causes in a frame and one in
    a run.  [render_frame] raises [ZeroDivisionError] only when the overlay
    is on with a non-empty text and [DURATION_SEC] is zero, or when the
    colon is on and its blink frequency is zero or so large that
    [1.0 / frequency] is zero.  A run of [main_mp4] that ends on
    [ZeroDivisionError] has the second cause: a zero duration or frame rate
    makes the loop empty, so neither [i / FPS] nor the scroll speed is ever
    computed; and the run then failed on its first frame, with nothing
    appended and the writer closed. *)
Theorem zero_division_provenance (env : Env) (cfg : Config) (lines : list string) :
  let f := COLON_BLINK_FREQ cfg in
  let degenerate := is_zero f || is_zero (1 / f)%float in
  (forall t positions,
     render_frame env cfg t positions lines = Raise ZeroDivisionError ->
     (CODE_OVERLAY_ENABLED cfg = true /\ lines <> [] /\ DURATION_SEC cfg = 0) \/
     (COLON_ENABLED cfg = true /\ degenerate = true)) /\
  (fst (main_mp4 env cfg lines) = Raise ZeroDivisionError ->
     COLON_ENABLED cfg = true /\ degenerate = true /\
     0 < DURATION_SEC cfg * FPS cfg /\
     main_mp4 env cfg lines = (Raise ZeroDivisionError, {| appended := []; closed := true |})).
Proof.
  cbv zeta. split; [intros t positions; apply render_frame_zero_division|].
  intros H.
  assert (Hi : exists i, In i (range (DURATION_SEC cfg * FPS cfg)) /\
                 frame_at env cfg (compute_grid_positions cfg) lines i
                   = Raise ZeroDivisionError).
  { unfold main_mp4 in H.
    apply (write_frames_raises env cfg _ lines _ _ get_writer).
    destruct (write_frames _ _ _ _ _ _) as [outcome w]. exact H. }
  destruct Hi as (i & Hin & Ei).
  assert (Hn : 0 < DURATION_SEC cfg * FPS cfg).
  { destruct (Z_lt_le_dec 0 (DURATION_SEC cfg * FPS cfg)) as [Hn|Hn]; [exact Hn|].
    rewrite (range_nonpos _ Hn) in Hin. destruct Hin. }
  assert (Hcolon : COLON_ENABLED cfg = true /\
            is_zero (COLON_BLINK_FREQ cfg) || is_zero (1 / COLON_BLINK_FREQ cfg)%float = true).
  { unfold frame_at in Ei.
    destruct (PyFloat.int_truediv i (FPS cfg)) as [t|e] eqn:Et.
    - cbn [bind] in Ei. apply render_frame_zero_division in Ei.
      destruct Ei as [(_ & _ & Hd) | Hc]; [|exact Hc]. rewrite Hd in Hn. lia.
    - cbn [bind] in Ei. exfalso. revert Et. injection Ei as ->.
      apply no_zero_division_int_truediv. intros Hf. rewrite Hf in Hn. lia. }
  destruct Hcolon as [Hc Hd]. split; [exact Hc|]. split; [exact Hd|]. split; [exact Hn|].
  destruct (main_mp4_first_frame_fails env cfg lines Hn) as (e & E).
  { intros t frame Ef. apply render_frame_painted in Ef.
    destruct Ef as (_ & _ & overlay & k & visible & leds & colon & _ & _ & Hv & _).
    rewrite colon_visible_cases, Hc, Hd in Hv. discriminate. }
  rewrite E in H. cbn [fst] in H. injection H as ->. exact E.
Qed.

Lemma zero_division_provenance_witness :
  main_mp4 sample_env (with_blink true 0 clock_config) sample_lines
    = (Raise ZeroDivisionError, {| appended := []; closed := true |}) /\
  ((CODE_OVERLAY_ENABLED (with_duration 0 clock_config) = true /\
    sample_lines <> [] /\ DURATION_SEC (with_duration 0 clock_config) = 0) \/
   (COLON_ENABLED (with_duration 0 clock_config) = true /\
    is_zero (COLON_BLINK_FREQ (with_duration 0 clock_config))
    || is_zero (1 / COLON_BLINK_FREQ (with_duration 0 clock_config))%float = true)).
Proof.
  split.
  - apply (proj2 (zero_division_provenance sample_env (with_blink true 0 clock_config)
                    sample_lines)).
    vm_compute. reflexivity.
  - apply (proj1 (zero_division_provenance sample_env (with_duration 0 clock_config)
                    sample_lines) 1.5%float (compute_grid_positions clock_config)).
    vm_compute. reflexivity.
Defined.
